(** * Fractal Engine deployment: the four CDK stacks and their composition

    A shallow embedding of [lib/network-stack.ts], [lib/dogecoin-stack.ts],
    [lib/database-stack.ts], [lib/engine-stack.ts] and the entry point
    [bin/*.ts] that composes them.  Every stack constructor is a function
    from its props to the record of resources it declares; the mutations
    the constructors perform on constructs ([addIngressRule],
    [addPortMappings], [addDependency], ...) are written as explicit
    state passing on the construct's record. *)

From Stdlib Require Import ZArith Ascii String List.
From stdpp Require Import base strings list gmap pretty.

Set Default Proof Using "Type".

(** ** JavaScript values *)

(** [a ?? b]: the right operand when the left one is [undefined]. *)
Notation "o ?? d" := (default d o) (at level 45, left associativity).

(** A [number] is an integer literal, or a number whose value is only known
    at deploy time (an attribute of a resource that does not exist yet). *)
Inductive number :=
  | Num (z : Z)
  | NumToken (attr : string).
Arguments Num z%_Z.

(** A deploy-time string attribute [attr] of the construct at [path]. *)
Definition token (path attr : string) : string :=
  "${Token[" +:+ path +:+ "." +:+ attr +:+ "]}".

(** [String(n)] *)
Definition String_ (n : number) : string :=
  match n with
  | Num z => pretty z
  | NumToken attr => "${Token[" +:+ attr +:+ "]}"
  end.

(** The double-quote character. *)
Definition dquote : ascii := "034"%char.

(** Truthiness of a string: every string but the empty one. *)
Definition truthy (s : string) : bool :=
  match s with
  | EmptyString => false
  | String _ _ => true
  end.

(** An object with string values, as the ordered sequence of its own
    properties: a key occurs once, assignment to an existing key keeps the
    key's position. *)
Module JsObject.

Abbreviation t := (list (string * string)).

Fixpoint set (k v : string) (o : t) : t :=
  match o with
  | [] => [(k, v)]
  | (k', v') :: o' =>
      if decide (k = k') then (k', v) :: o' else (k', v') :: set k v o'
  end.

Fixpoint get (k : string) (o : t) : option string :=
  match o with
  | [] => None
  | (k', v') :: o' => if decide (k = k') then Some v' else get k o'
  end.

Definition has (k : string) (o : t) : bool :=
  match get k o with Some _ => true | None => false end.

Definition keys (o : t) : list string := map fst o.

(** [Object.assign(dst, src)]: the properties of [src], in order. *)
Definition assign (dst src : t) : t :=
  fold_left (fun acc kv => set (fst kv) (snd kv) acc) src dst.

(** The members of an object literal: [k: v] and [...o]. *)
Inductive member :=
  | prop (k v : string)
  | spread (o : option t).

Definition add_member (acc : t) (m : member) : t :=
  match m with
  | prop k v => set k v acc
  | spread o => assign acc (o ?? [])
  end.

(** [{ m1, m2, ... }] *)
Definition literal (ms : list member) : t := fold_left add_member ms [].

(** How many own properties are named [k]. *)
Definition occurrences (k : string) (o : t) : nat :=
  length (filter (fun kv => fst kv = k) o).

End JsObject.

(** ** The part of aws-cdk-lib the stacks use *)

(** A construct is known by the stack it is declared in and its id there. *)
Record ConstructNode := {
  scope : string;
  constructId : string;
}.

Global Instance ConstructNode_eq_dec : EqDecision ConstructNode.
Proof. solve_decision. Defined.

Module cdk.

Record Environment := {
  account : option string;
  region : option string;
}.

(** [cdk.Stack]: the base of the four stacks.  [dependencies] are the
    stacks named by [addDependency]. *)
Record Stack := {
  stackName : string;
  env : option Environment;
  dependencies : list string;
}.

(** [super(scope, id, props)] *)
Definition Stack_new (id : string) (e : option Environment) : Stack :=
  {| stackName := id; env := e; dependencies := [] |}.

(** [s.addDependency(target)] *)
Definition addDependency (s target : Stack) : Stack :=
  {| stackName := stackName s;
     env := env s;
     dependencies := dependencies s ++ [stackName target] |}.

Inductive RemovalPolicy := DESTROY | RETAIN.

Inductive Duration :=
  | days (n : number)
  | seconds (n : number).

Record CfnOutput := {
  outputId : string;
  value : string;
}.

End cdk.

Module ec2.

Inductive SubnetType := PUBLIC | PRIVATE_WITH_EGRESS | PRIVATE_ISOLATED.

Global Instance SubnetType_eq_dec : EqDecision SubnetType.
Proof. solve_decision. Defined.

Record SubnetConfiguration := {
  name : string;
  subnetType : SubnetType;
  cidrMask : Z;
}.

(** [SubnetSelection]: by tier, or (what [selectSubnets] returns) by the
    subnets themselves. *)
Record SubnetSelection := {
  selSubnetType : option SubnetType;
  selSubnets : option (list SubnetConfiguration);
}.

Definition bySubnetType (ty : SubnetType) : SubnetSelection :=
  {| selSubnetType := Some ty; selSubnets := None |}.

Record GatewayEndpoint := {
  gatewayId : string;
  gatewayService : string;
  gatewaySubnets : list SubnetSelection;
}.

Inductive Port := tcp (p : Z).
Arguments tcp p%_Z.

Global Instance Port_eq_dec : EqDecision Port.
Proof. solve_decision. Defined.

(** [port.toString()] *)
Definition portString (pt : Port) : string :=
  match pt with
  | tcp p => pretty p
  end.

(** A peer: any IPv4 address, a security group, or the IPv4 addresses of a
    block. *)
Inductive Peer :=
  | anyIpv4
  | securityGroupPeer (sg : ConstructNode)
  | ipv4 (cidrIp : string).

Global Instance Peer_eq_dec : EqDecision Peer.
Proof. solve_decision. Defined.

Record IngressRule := {
  peer : Peer;
  port : Port;
  ruleDescription : string;
}.

Record SecurityGroup := {
  sgNode : ConstructNode;
  sgVpc : ConstructNode;
  description : option string;
  allowAllOutbound : bool;
  ingress : list IngressRule;
}.

(** An interface endpoint, with the security group made for it. *)
Record InterfaceEndpoint := {
  endpointId : string;
  endpointService : string;
  endpointSubnets : SubnetSelection;
  endpointPort : Port;
  endpointGroup : SecurityGroup;
}.

Record Vpc := {
  vpcNode : ConstructNode;
  ipAddresses : string;
  natGateways : number;
  enableDnsHostnames : bool;
  enableDnsSupport : bool;
  subnetConfiguration : list SubnetConfiguration;
  gatewayEndpoints : list GatewayEndpoint;
  interfaceEndpoints : list InterfaceEndpoint;
}.

(** [vpc.addGatewayEndpoint(id, { service, subnets })] *)
Definition addGatewayEndpoint (v : Vpc) (id service : string)
    (subnets : list SubnetSelection) : Vpc :=
  {| vpcNode := vpcNode v; ipAddresses := ipAddresses v;
     natGateways := natGateways v;
     enableDnsHostnames := enableDnsHostnames v;
     enableDnsSupport := enableDnsSupport v;
     subnetConfiguration := subnetConfiguration v;
     gatewayEndpoints := gatewayEndpoints v ++
       [{| gatewayId := id; gatewayService := service;
           gatewaySubnets := subnets |}];
     interfaceEndpoints := interfaceEndpoints v |}.

(** [vpc.selectSubnets(selection)]: the subnets named by the selection,
    or else the subnets of the selected tier; with neither, the
    private-with-egress tier. *)
Definition selectSubnets (v : Vpc) (sel : SubnetSelection)
    : list SubnetConfiguration :=
  match selSubnets sel with
  | Some l => l
  | None =>
      let ty := selSubnetType sel ?? PRIVATE_WITH_EGRESS in
      filter (fun c => subnetType c = ty) (subnetConfiguration v)
  end.

(** The result of [selectSubnets], passed where a selection is expected. *)
Definition selected (l : list SubnetConfiguration) : SubnetSelection :=
  {| selSubnetType := None; selSubnets := Some l |}.

(** The address block of a VPC: an attribute of the VPC resource, known at
    deploy time. *)
Definition cidrBlockOf (vpc : ConstructNode) : string :=
  token (constructId vpc) "CidrBlock".

(** [vpc.vpcCidrBlock] *)
Definition vpcCidrBlock (v : Vpc) : string := cidrBlockOf (vpcNode v).

Definition SecurityGroup_new (stack id : string) (v : Vpc)
    (descr : option string) (outbound : bool) : SecurityGroup :=
  {| sgNode := {| scope := stack; constructId := id |};
     sgVpc := vpcNode v;
     description := descr;
     allowAllOutbound := outbound;
     ingress := [] |}.

(** [ec2.Peer.securityGroupId]-style use of a group as a peer: the rule
    names the group, it does not copy it. *)
Definition asPeer (sg : SecurityGroup) : Peer := securityGroupPeer (sgNode sg).

(** [sg.addIngressRule(peer, port, description)] *)
Definition addIngressRule (sg : SecurityGroup) (p : Peer) (pt : Port)
    (descr : string) : SecurityGroup :=
  {| sgNode := sgNode sg; sgVpc := sgVpc sg;
     description := description sg;
     allowAllOutbound := allowAllOutbound sg;
     ingress := ingress sg ++
       [{| peer := p; port := pt; ruleDescription := descr |}] |}.

(** The port of the AWS services an interface endpoint connects to. *)
Definition awsServicePort : Port := tcp 443.

(** [vpc.addInterfaceEndpoint(id, { service, subnets })].  Given no
    security group and not told otherwise ([open]), the endpoint gets a
    security group of its own, under the VPC, that admits the service port
    from the VPC's address block. *)
Definition addInterfaceEndpoint (v : Vpc) (id service : string)
    (subnets : SubnetSelection) : Vpc :=
  let group :=
    SecurityGroup_new (scope (vpcNode v))
      (constructId (vpcNode v) +:+ "/" +:+ id +:+ "/SecurityGroup")
      v None true in
  let group :=
    addIngressRule group (ipv4 (vpcCidrBlock v)) awsServicePort
      ("from " +:+ vpcCidrBlock v +:+ ":" +:+ portString awsServicePort) in
  {| vpcNode := vpcNode v; ipAddresses := ipAddresses v;
     natGateways := natGateways v;
     enableDnsHostnames := enableDnsHostnames v;
     enableDnsSupport := enableDnsSupport v;
     subnetConfiguration := subnetConfiguration v;
     gatewayEndpoints := gatewayEndpoints v;
     interfaceEndpoints := interfaceEndpoints v ++
       [{| endpointId := id; endpointService := service;
           endpointSubnets := subnets;
           endpointPort := awsServicePort;
           endpointGroup := group |}] |}.

(** [ec2.InstanceType.of(class, size)] *)
Record InstanceType := {
  instanceClass : string;
  instanceSize : string;
}.
Definition T3 : string := "t3".
Definition MICRO : string := "micro".

End ec2.

Module servicediscovery.

Record PrivateDnsNamespace := {
  namespaceNode : ConstructNode;
  namespaceName : string;
  namespaceVpc : ConstructNode;
  namespaceDescription : string;
}.

Inductive DnsRecordType := A | AAAA | SRV | CNAME.

End servicediscovery.

Module iam.

Record PolicyStatement := {
  actions : list string;
  resources : list string;
}.

Record Role := {
  roleNode : ConstructNode;
  assumedBy : string;
  managedPolicies : list string;
  roleDescription : option string;
  policy : list PolicyStatement;
}.

(** [role.addToPolicy(statement)] *)
Definition addToPolicy (r : Role) (s : PolicyStatement) : Role :=
  {| roleNode := roleNode r; assumedBy := assumedBy r;
     managedPolicies := managedPolicies r;
     roleDescription := roleDescription r;
     policy := policy r ++ [s] |}.

Record ManagedPolicy := {
  policyNode : ConstructNode;
  policyDescription : string;
  statements : list PolicyStatement;
}.

Definition managedPolicyArn (p : ManagedPolicy) : string :=
  token (constructId (policyNode p)) "Arn".

End iam.

Module logs.

Inductive RetentionDays := ONE_WEEK.

Record LogGroup := {
  logGroupNode : ConstructNode;
  retention : RetentionDays;
  removalPolicy : cdk.RemovalPolicy;
}.

End logs.

Module secretsmanager.

(** [ISecret]: the handle of a secret. *)
Record ISecret := {
  secretNode : ConstructNode;
  secretName : string;
}.

Definition secretArn (s : ISecret) : string :=
  token (constructId (secretNode s)) "Arn".

(** [secret.grantRead(role)] *)
Definition grantRead (s : ISecret) (r : iam.Role) : iam.Role :=
  iam.addToPolicy r
    {| iam.actions :=
         ["secretsmanager:GetSecretValue"; "secretsmanager:DescribeSecret"];
       iam.resources := [secretArn s] |}.

End secretsmanager.

Module efs.

Inductive LifecyclePolicy := AFTER_14_DAYS.
Inductive PerformanceMode := GENERAL_PURPOSE.
Inductive ThroughputMode := BURSTING.

(** [efs.FileSystem.DEFAULT_PORT], the NFS port. *)
Definition DEFAULT_PORT : ec2.Port := ec2.tcp 2049.

(** [connections] is the file system's own security group together with
    its default port. *)
Record FileSystem := {
  fsNode : ConstructNode;
  fsVpc : ConstructNode;
  vpcSubnets : ec2.SubnetSelection;
  lifecyclePolicy : LifecyclePolicy;
  performanceMode : PerformanceMode;
  throughputMode : ThroughputMode;
  removalPolicy : cdk.RemovalPolicy;
  connections : ec2.SecurityGroup;
  defaultPort : ec2.Port;
}.

(** [fs.connections.allowDefaultPortFrom(other, description)] *)
Definition allowDefaultPortFrom (fs : FileSystem) (other : ec2.SecurityGroup)
    (descr : string) : FileSystem :=
  {| fsNode := fsNode fs; fsVpc := fsVpc fs; vpcSubnets := vpcSubnets fs;
     lifecyclePolicy := lifecyclePolicy fs;
     performanceMode := performanceMode fs;
     throughputMode := throughputMode fs;
     removalPolicy := removalPolicy fs;
     connections :=
       ec2.addIngressRule (connections fs) (ec2.asPeer other)
         (defaultPort fs) descr;
     defaultPort := defaultPort fs |}.

Definition fileSystemArn (fs : FileSystem) : string :=
  token (constructId (fsNode fs)) "Arn".
Definition fileSystemId (fs : FileSystem) : string :=
  token (constructId (fsNode fs)) "FileSystemId".

Record Acl := {
  ownerUid : string;
  ownerGid : string;
  permissions : string;
}.

Record AccessPoint := {
  apNode : ConstructNode;
  fileSystem : ConstructNode;
  path : string;
  createAcl : Acl;
}.

Definition accessPointArn (ap : AccessPoint) : string :=
  token (constructId (apNode ap)) "Arn".
Definition accessPointId (ap : AccessPoint) : string :=
  token (constructId (apNode ap)) "AccessPointId".

End efs.

Module ecs.

Record Cluster := {
  clusterNode : ConstructNode;
  clusterVpc : ConstructNode;
  containerInsights : bool;
}.

Inductive ContainerImage := fromRegistry (image : string).

Inductive Protocol := TCP | UDP.

Record PortMapping := {
  containerPort : number;
  protocol : Protocol;
}.

Record MountPoint := {
  containerPath : string;
  sourceVolume : string;
  readOnly : bool;
}.

(** [ecs.LogDrivers.awsLogs({ streamPrefix, logGroup })] *)
Record AwsLogDriver := {
  streamPrefix : string;
  logGroup : ConstructNode;
}.

(** [ecs.Secret.fromSecretsManager(secret, field)] *)
Record Secret := {
  fromSecret : secretsmanager.ISecret;
  field : string;
}.

Record ContainerDefinition := {
  containerName : string;
  image : ContainerImage;
  containerCpu : option number;
  containerMemoryLimitMiB : option number;
  logging : AwsLogDriver;
  environment : JsObject.t;
  secrets : list (string * Secret);
  essential : bool;
  portMappings : list PortMapping;
  mountPoints : list MountPoint;
}.

(** [container.addPortMappings(...mappings)] *)
Definition addPortMappings (c : ContainerDefinition)
    (ms : list PortMapping) : ContainerDefinition :=
  {| containerName := containerName c; image := image c;
     containerCpu := containerCpu c;
     containerMemoryLimitMiB := containerMemoryLimitMiB c;
     logging := logging c; environment := environment c;
     secrets := secrets c; essential := essential c;
     portMappings := portMappings c ++ ms;
     mountPoints := mountPoints c |}.

(** [container.addMountPoints(...mountPoints)] *)
Definition addMountPoints (c : ContainerDefinition)
    (ms : list MountPoint) : ContainerDefinition :=
  {| containerName := containerName c; image := image c;
     containerCpu := containerCpu c;
     containerMemoryLimitMiB := containerMemoryLimitMiB c;
     logging := logging c; environment := environment c;
     secrets := secrets c; essential := essential c;
     portMappings := portMappings c;
     mountPoints := mountPoints c ++ ms |}.

Record AuthorizationConfig := {
  accessPointId : string;
  iam : string;
}.

Record EfsVolumeConfiguration := {
  fileSystemId : string;
  transitEncryption : string;
  authorizationConfig : AuthorizationConfig;
}.

Record Volume := {
  volumeName : string;
  efsVolumeConfiguration : EfsVolumeConfiguration;
}.

Record FargateTaskDefinition := {
  taskDefNode : ConstructNode;
  cpu : number;
  memoryLimitMiB : number;
  executionRole : iam.Role;
  taskRole : iam.Role;
  volumes : list Volume;
  containers : list ContainerDefinition;
}.

Record CloudMapOptions := {
  cloudMapName : string;
  cloudMapNamespace : servicediscovery.PrivateDnsNamespace;
  dnsRecordType : servicediscovery.DnsRecordType;
  dnsTtl : cdk.Duration;
}.

Record FargateService := {
  serviceNode : ConstructNode;
  cluster : Cluster;
  taskDefinition : FargateTaskDefinition;
  desiredCount : number;
  enableExecuteCommand : bool;
  securityGroups : list ec2.SecurityGroup;
  vpcSubnets : ec2.SubnetSelection;
  assignPublicIp : bool;
  minHealthyPercent : Z;
  maxHealthyPercent : Z;
  cloudMapOptions : option CloudMapOptions;
}.

End ecs.

Module rds.

Record PostgresEngineVersion := {
  fullVersion : string;
  majorVersion : string;
}.

Inductive DatabaseInstanceEngine :=
  | postgres (version : PostgresEngineVersion).

(** [rds.Credentials.fromGeneratedSecret(username, options)] *)
Record Credentials := {
  username : string;
  secretName : string;
  excludeCharacters : string;
}.

Inductive StorageType := GP3.

Record DatabaseInstance := {
  instanceNode : ConstructNode;
  vpc : ConstructNode;
  vpcSubnets : ec2.SubnetSelection;
  securityGroups : list ec2.SecurityGroup;
  engine : DatabaseInstanceEngine;
  credentials : Credentials;
  databaseName : string;
  instanceType : ec2.InstanceType;
  multiAz : bool;
  allocatedStorage : number;
  maxAllocatedStorage : number;
  storageType : StorageType;
  publiclyAccessible : bool;
  deletionProtection : bool;
  removalPolicy : cdk.RemovalPolicy;
  cloudwatchLogsExports : list string;
  backupRetention : cdk.Duration;
}.

(** [instance.instanceEndpoint]: known at deploy time only. *)
Definition hostname (i : DatabaseInstance) : string :=
  token (constructId (instanceNode i)) "Endpoint.Address".
Definition port (i : DatabaseInstance) : number :=
  NumToken (constructId (instanceNode i) +:+ ".Endpoint.Port").
Definition socketAddress (i : DatabaseInstance) : string :=
  hostname i +:+ ":" +:+ String_ (port i).

(** [instance.secret]: the secret generated for the credentials. *)
Definition secret (i : DatabaseInstance) : secretsmanager.ISecret :=
  {| secretsmanager.secretNode :=
       {| scope := scope (instanceNode i);
          constructId := constructId (instanceNode i) +:+ "/Secret" |};
     secretsmanager.secretName := secretName (credentials i) |}.

End rds.

Module elbv2.

Record ApplicationLoadBalancer := {
  albNode : ConstructNode;
  albVpc : ConstructNode;
  internetFacing : bool;
  securityGroup : ec2.SecurityGroup;
  vpcSubnets : ec2.SubnetSelection;
}.

Definition loadBalancerDnsName (lb : ApplicationLoadBalancer) : string :=
  token (constructId (albNode lb)) "DNSName".

Inductive ApplicationProtocol := HTTP | HTTPS.
Inductive TargetType := IP | INSTANCE.

Record HealthCheck := {
  path : string;
  healthyHttpCodes : string;
  interval : cdk.Duration;
}.

Record ApplicationTargetGroup := {
  tgNode : ConstructNode;
  tgVpc : ConstructNode;
  tgPort : Z;
  tgProtocol : ApplicationProtocol;
  targetType : TargetType;
  healthCheck : HealthCheck;
  deregistrationDelay : cdk.Duration;
  targets : list ConstructNode;
}.

(** [service.attachToApplicationTargetGroup(tg)] *)
Definition attach (tg : ApplicationTargetGroup) (svc : ecs.FargateService)
    : ApplicationTargetGroup :=
  {| tgNode := tgNode tg; tgVpc := tgVpc tg; tgPort := tgPort tg;
     tgProtocol := tgProtocol tg; targetType := targetType tg;
     healthCheck := healthCheck tg;
     deregistrationDelay := deregistrationDelay tg;
     targets := targets tg ++ [ecs.serviceNode svc] |}.

Record ApplicationListener := {
  listenerId : string;
  listenerPort : Z;
  listenerProtocol : option ApplicationProtocol;
  open : bool;
  targetGroups : list (string * list ApplicationTargetGroup);
}.

(** The protocol of a listener: the one it was given, or else the one its
    port stands for. *)
Definition protocolOf (l : ApplicationListener) : ApplicationProtocol :=
  listenerProtocol l ??
    (if decide (listenerPort l = 443%Z) then HTTPS else HTTP).

(** [listener.addTargetGroups(id, { targetGroups })] *)
Definition addTargetGroups (l : ApplicationListener) (id : string)
    (tgs : list ApplicationTargetGroup) : ApplicationListener :=
  {| listenerId := listenerId l; listenerPort := listenerPort l;
     listenerProtocol := listenerProtocol l;
     open := open l;
     targetGroups := targetGroups l ++ [(id, tgs)] |}.

End elbv2.

(** ** lib/network-stack.ts *)

Module NetworkStackProps.

Record t := {
  env : option cdk.Environment;
  cidr : option string;
  natGateways : option number;
}.

End NetworkStackProps.

Module NetworkStack.

Record t := {
  stack : cdk.Stack;
  vpc : ec2.Vpc;
  namespace : servicediscovery.PrivateDnsNamespace;
  albSg : ec2.SecurityGroup;
  engineSg : ec2.SecurityGroup;
  rdsSg : ec2.SecurityGroup;
  dogeSg : ec2.SecurityGroup;
  outputs : list cdk.CfnOutput;
}.

Definition constructor (id : string) (props : option NetworkStackProps.t) : t :=
  let this := cdk.Stack_new id (props ≫= NetworkStackProps.env) in
  let node c := {| scope := id; constructId := c |} in
  (* VPC *)
  let vpc : ec2.Vpc :=
    {| ec2.vpcNode := node "FractalVpc";
       ec2.ipAddresses := (props ≫= NetworkStackProps.cidr) ?? "10.0.0.0/16";
       ec2.natGateways := (props ≫= NetworkStackProps.natGateways) ?? Num 1;
       ec2.enableDnsHostnames := true;
       ec2.enableDnsSupport := true;
       ec2.subnetConfiguration :=
         [ {| ec2.name := "public"; ec2.subnetType := ec2.PUBLIC;
              ec2.cidrMask := 24 |};
           {| ec2.name := "app"; ec2.subnetType := ec2.PRIVATE_WITH_EGRESS;
              ec2.cidrMask := 24 |};
           {| ec2.name := "data"; ec2.subnetType := ec2.PRIVATE_ISOLATED;
              ec2.cidrMask := 24 |} ];
       ec2.gatewayEndpoints := [];
       ec2.interfaceEndpoints := [] |} in
  let namespace : servicediscovery.PrivateDnsNamespace :=
    {| servicediscovery.namespaceNode := node "ServiceNamespace";
       servicediscovery.namespaceName := "fractal.local";
       servicediscovery.namespaceVpc := ec2.vpcNode vpc;
       servicediscovery.namespaceDescription :=
         "Private DNS for Fractal services" |} in
  (* VPC endpoints *)
  let app := ec2.bySubnetType ec2.PRIVATE_WITH_EGRESS in
  let vpc := ec2.addGatewayEndpoint vpc "S3Endpoint" "S3"
               [ ec2.bySubnetType ec2.PRIVATE_WITH_EGRESS;
                 ec2.bySubnetType ec2.PRIVATE_ISOLATED ] in
  let vpc := ec2.addInterfaceEndpoint vpc "EcrDockerEndpoint" "ECR_DOCKER" app in
  let vpc := ec2.addInterfaceEndpoint vpc "EcrApiEndpoint" "ECR" app in
  let vpc := ec2.addInterfaceEndpoint vpc "LogsEndpoint" "CLOUDWATCH_LOGS" app in
  let vpc := ec2.addInterfaceEndpoint vpc "SecretsManagerEndpoint"
               "SECRETS_MANAGER" app in
  let vpc := ec2.addInterfaceEndpoint vpc "SsmEndpoint" "SSM" app in
  let vpc := ec2.addInterfaceEndpoint vpc "SsmMessagesEndpoint" "SSM_MESSAGES" app in
  let vpc := ec2.addInterfaceEndpoint vpc "Ec2MessagesEndpoint" "EC2_MESSAGES" app in
  (* Security groups *)
  let albSg := ec2.SecurityGroup_new id "AlbSg" vpc
                 (Some "ALB security group") true in
  let albSg := ec2.addIngressRule albSg ec2.anyIpv4 (ec2.tcp 80)
                 "HTTP from anywhere" in
  let engineSg := ec2.SecurityGroup_new id "EngineSg" vpc
                    (Some "Fractal Engine security group") true in
  let rdsSg := ec2.SecurityGroup_new id "RdsSg" vpc
                 (Some "RDS security group") true in
  let dogeSg := ec2.SecurityGroup_new id "DogeSg" vpc
                  (Some "Dogecoin Node security group") true in
  (* Engine inbound from ALB (Engine RPC) *)
  let engineSg := ec2.addIngressRule engineSg (ec2.asPeer albSg) (ec2.tcp 8891)
                    "Engine RPC from ALB only" in
  (* RDS inbound from Engine *)
  let rdsSg := ec2.addIngressRule rdsSg (ec2.asPeer engineSg) (ec2.tcp 5432)
                 "Postgres from Engine only" in
  (* Dogecoin inbound from Engine *)
  let dogeSg := ec2.addIngressRule dogeSg (ec2.asPeer engineSg) (ec2.tcp 22555)
                  "Dogecoin RPC from Engine only" in
  let dogeSg := ec2.addIngressRule dogeSg (ec2.asPeer engineSg) (ec2.tcp 22556)
                  "Dogecoin P2P from Engine only" in
  let dogeSg := ec2.addIngressRule dogeSg (ec2.asPeer engineSg) (ec2.tcp 28000)
                  "Dogecoin ZMQ from Engine only" in
  {| stack := this;
     vpc := vpc;
     namespace := namespace;
     albSg := albSg;
     engineSg := engineSg;
     rdsSg := rdsSg;
     dogeSg := dogeSg;
     outputs :=
       [ {| cdk.outputId := "VpcId"; cdk.value := token "FractalVpc" "VpcId" |};
         {| cdk.outputId := "AlbSgId"; cdk.value := token "AlbSg" "GroupId" |};
         {| cdk.outputId := "EngineSgId"; cdk.value := token "EngineSg" "GroupId" |};
         {| cdk.outputId := "RdsSgId"; cdk.value := token "RdsSg" "GroupId" |};
         {| cdk.outputId := "DogeSgId"; cdk.value := token "DogeSg" "GroupId" |};
         {| cdk.outputId := "NamespaceId";
            cdk.value := token "ServiceNamespace" "Id" |} ] |}.

(** The security groups of the stack. *)
Definition securityGroups (s : t) : list ec2.SecurityGroup :=
  [albSg s; engineSg s; rdsSg s; dogeSg s].

End NetworkStack.

(** ** lib/database-stack.ts *)

Module DatabaseStackProps.

Record t := {
  env : option cdk.Environment;
  vpc : ec2.Vpc;
  rdsSecurityGroup : ec2.SecurityGroup;
  databaseName : option string;
  dbSubnetSelection : option ec2.SubnetSelection;
  instanceType : option ec2.InstanceType;
  multiAz : option bool;
  allocatedStorageGiB : option number;
  maxAllocatedStorageGiB : option number;
  deletionProtection : option bool;
  backupRetentionDays : option number;
  credentialsSecretName : option string;
}.

End DatabaseStackProps.

Module DatabaseStack.

Import DatabaseStackProps.

Record t := {
  stack : cdk.Stack;
  rdsInstance : rds.DatabaseInstance;
  rdsSecret : secretsmanager.ISecret;
  outputs : list cdk.CfnOutput;
}.

Definition constructor (id : string) (props : DatabaseStackProps.t) : t :=
  let this := cdk.Stack_new id (env props) in
  let databaseName := databaseName props ?? "fractal" in
  (* Credentials stored in Secrets Manager *)
  let dbCredentials : rds.Credentials :=
    {| rds.username := "fractal_engine";
       rds.secretName :=
         credentialsSecretName props ?? "FractalEngineRdsCredentials";
       rds.excludeCharacters := String dquote "@/\:?#[]{}|^~;=%&+()<>" |} in
  let rdsInstance : rds.DatabaseInstance :=
    {| rds.instanceNode := {| scope := id; constructId := "FractalDb" |};
       rds.vpc := ec2.vpcNode (vpc props);
       rds.vpcSubnets :=
         dbSubnetSelection props ?? ec2.bySubnetType ec2.PRIVATE_ISOLATED;
       rds.securityGroups := [rdsSecurityGroup props];
       rds.engine :=
         rds.postgres {| rds.fullVersion := "15"; rds.majorVersion := "15" |};
       rds.credentials := dbCredentials;
       rds.databaseName := databaseName;
       rds.instanceType :=
         instanceType props ??
           {| ec2.instanceClass := ec2.T3; ec2.instanceSize := ec2.MICRO |};
       rds.multiAz := multiAz props ?? false;
       rds.allocatedStorage := allocatedStorageGiB props ?? Num 20;
       rds.maxAllocatedStorage := maxAllocatedStorageGiB props ?? Num 100;
       rds.storageType := rds.GP3;
       rds.publiclyAccessible := false;
       rds.deletionProtection := deletionProtection props ?? false;
       rds.removalPolicy := cdk.DESTROY;
       rds.cloudwatchLogsExports := ["postgresql"];
       rds.backupRetention := cdk.days (backupRetentionDays props ?? Num 3) |} in
  let rdsSecret := rds.secret rdsInstance in
  {| stack := this;
     rdsInstance := rdsInstance;
     rdsSecret := rdsSecret;
     outputs :=
       [ {| cdk.outputId := "RdsEndpoint";
            cdk.value := rds.socketAddress rdsInstance |};
         {| cdk.outputId := "RdsSecretName";
            cdk.value := secretsmanager.secretName rdsSecret |} ] |}.

End DatabaseStack.

(** ** lib/dogecoin-stack.ts *)

Module DogecoinStackProps.

Record t := {
  env : option cdk.Environment;
  vpc : ec2.Vpc;
  dogeSecurityGroup : ec2.SecurityGroup;
  namespace : servicediscovery.PrivateDnsNamespace;
  subnetSelection : option ec2.SubnetSelection;
  desiredCount : option number;
  cpu : option number;
  memoryMiB : option number;
  containerImage : option ecs.ContainerImage;
  namespaceName : option string;
  serviceName : option string;
  rpcPort : option number;
  p2pPort : option number;
  zmqPort : option number;
  environment : option JsObject.t;
}.

End DogecoinStackProps.

Module DogecoinStack.

Record t := {
  stack : cdk.Stack;
  cluster : ecs.Cluster;
  service : ecs.FargateService;
  serviceDiscoveryName : string;
  rpcPort : number;
  zmqPort : number;
  dogeEfs : efs.FileSystem;
  dogeEfsAp : efs.AccessPoint;
  ecsExecOperatorPolicy : iam.ManagedPolicy;
  logGroup : logs.LogGroup;
  outputs : list cdk.CfnOutput;
}.

Definition constructor (id : string) (props : DogecoinStackProps.t) : t :=
  let this := cdk.Stack_new id (DogecoinStackProps.env props) in
  let node c := {| scope := id; constructId := c |} in
  let desiredCount := DogecoinStackProps.desiredCount props ?? Num 1 in
  let cpu := DogecoinStackProps.cpu props ?? Num 512 in
  let memoryMiB := DogecoinStackProps.memoryMiB props ?? Num 1024 in
  let rpcPort := DogecoinStackProps.rpcPort props ?? Num 22555 in
  let p2pPort := DogecoinStackProps.p2pPort props ?? Num 22556 in
  let zmqPort := DogecoinStackProps.zmqPort props ?? Num 28000 in
  let namespaceName := DogecoinStackProps.namespaceName props ?? "fractal.local" in
  let serviceName := DogecoinStackProps.serviceName props ?? "dogecoin" in
  let vpc := DogecoinStackProps.vpc props in
  let vpcCidr := ec2.vpcCidrBlock vpc in
  (* ECS cluster *)
  let cluster : ecs.Cluster :=
    {| ecs.clusterNode := node "DogecoinCluster";
       ecs.clusterVpc := ec2.vpcNode vpc;
       ecs.containerInsights := true |} in
  let subnets :=
    ec2.selectSubnets vpc (ec2.bySubnetType ec2.PRIVATE_WITH_EGRESS) in
  (* Storage: EFS for persistent Dogecoin data *)
  let dogeEfs : efs.FileSystem :=
    {| efs.fsNode := node "DogecoinEfs";
       efs.fsVpc := ec2.vpcNode vpc;
       efs.vpcSubnets := ec2.selected subnets;
       efs.lifecyclePolicy := efs.AFTER_14_DAYS;
       efs.performanceMode := efs.GENERAL_PURPOSE;
       efs.throughputMode := efs.BURSTING;
       efs.removalPolicy := cdk.RETAIN;
       efs.connections :=
         ec2.SecurityGroup_new id "DogecoinEfs/EfsSecurityGroup" vpc None true;
       efs.defaultPort := efs.DEFAULT_PORT |} in
  (* Allow NFS from Dogecoin tasks *)
  let dogeEfs :=
    efs.allowDefaultPortFrom dogeEfs (DogecoinStackProps.dogeSecurityGroup props)
      "Allow NFS from Dogecoin tasks" in
  (* Access point for the container *)
  let dogeEfsAp : efs.AccessPoint :=
    {| efs.apNode := node "DogecoinEfsAp";
       efs.fileSystem := efs.fsNode dogeEfs;
       efs.path := "/dogecoin";
       efs.createAcl :=
         {| efs.ownerUid := "0"; efs.ownerGid := "0";
            efs.permissions := "0777" |} |} in
  (* IAM roles *)
  let executionRole : iam.Role :=
    {| iam.roleNode := node "DogecoinTaskExecutionRole";
       iam.assumedBy := "ecs-tasks.amazonaws.com";
       iam.managedPolicies :=
         [ "service-role/AmazonECSTaskExecutionRolePolicy";
           "AmazonSSMManagedInstanceCore" ];
       iam.roleDescription := None;
       iam.policy := [] |} in
  let taskRole : iam.Role :=
    {| iam.roleNode := node "DogecoinTaskRole";
       iam.assumedBy := "ecs-tasks.amazonaws.com";
       iam.managedPolicies := [];
       iam.roleDescription := Some "Task role for Dogecoin node";
       iam.policy := [] |} in
  let taskRole :=
    iam.addToPolicy taskRole
      {| iam.actions :=
           [ "ssm:CreateControlChannel"; "ssm:CreateDataChannel";
             "ssm:OpenControlChannel"; "ssm:OpenDataChannel";
             "elasticfilesystem:ClientMount"; "elasticfilesystem:ClientWrite";
             "elasticfilesystem:DescribeMountTargets";
             "elasticfilesystem:DescribeAccessPoints" ];
         iam.resources := ["*"] |} in
  let ecsExecOperatorPolicy : iam.ManagedPolicy :=
    {| iam.policyNode := node "EcsExecOperatorPolicy";
       iam.policyDescription :=
         "Allows operators to run ECS Exec and manage SSM sessions";
       iam.statements :=
         [ {| iam.actions := ["ecs:ExecuteCommand"]; iam.resources := ["*"] |};
           {| iam.actions :=
                [ "ssm:StartSession"; "ssm:DescribeSessions";
                  "ssm:TerminateSession" ];
              iam.resources := ["*"] |};
           {| iam.actions := ["kms:Decrypt"]; iam.resources := ["*"] |} ] |} in
  (* Grant ECS task permission to mount the EFS access point; the task
     definition holds the role itself, so it sees this statement *)
  let executionRole :=
    iam.addToPolicy executionRole
      {| iam.actions :=
           [ "elasticfilesystem:ClientMount"; "elasticfilesystem:ClientWrite";
             "elasticfilesystem:DescribeMountTargets";
             "elasticfilesystem:DescribeAccessPoints" ];
         iam.resources :=
           [efs.fileSystemArn dogeEfs; efs.accessPointArn dogeEfsAp] |} in
  let logGroup : logs.LogGroup :=
    {| logs.logGroupNode := node "DogecoinLogs";
       logs.retention := logs.ONE_WEEK;
       logs.removalPolicy := cdk.DESTROY |} in
  (* Container *)
  let image :=
    DogecoinStackProps.containerImage props ??
      ecs.fromRegistry "docker.io/danielwhelansb/dogecoin:v1.14.9" in
  let container : ecs.ContainerDefinition :=
    {| ecs.containerName := "Dogecoin";
       ecs.image := image;
       ecs.containerCpu := Some cpu;
       ecs.containerMemoryLimitMiB := Some memoryMiB;
       ecs.logging :=
         {| ecs.streamPrefix := "dogecoin";
            ecs.logGroup := logs.logGroupNode logGroup |};
       ecs.environment :=
         JsObject.literal
           [ JsObject.spread (DogecoinStackProps.environment props);
             JsObject.prop "DATADIR" "/data" ];
       ecs.secrets := [];
       ecs.essential := true;
       ecs.portMappings := [];
       ecs.mountPoints := [] |} in
  (* Mount EFS volume for persistent blockchain data *)
  let container :=
    ecs.addMountPoints container
      [ {| ecs.containerPath := "/data"; ecs.sourceVolume := "dogecoin-data";
           ecs.readOnly := false |} ] in
  (* Expose the typical Dogecoin ports *)
  let container :=
    ecs.addPortMappings container
      [ {| ecs.containerPort := rpcPort; ecs.protocol := ecs.TCP |};
        {| ecs.containerPort := p2pPort; ecs.protocol := ecs.TCP |};
        {| ecs.containerPort := zmqPort; ecs.protocol := ecs.TCP |} ] in
  (* Task definition, with the volume and the container added to it *)
  let taskDef : ecs.FargateTaskDefinition :=
    {| ecs.taskDefNode := node "DogecoinTaskDef";
       ecs.cpu := cpu;
       ecs.memoryLimitMiB := memoryMiB;
       ecs.executionRole := executionRole;
       ecs.taskRole := taskRole;
       ecs.volumes :=
         [ {| ecs.volumeName := "dogecoin-data";
              ecs.efsVolumeConfiguration :=
                {| ecs.fileSystemId := efs.fileSystemId dogeEfs;
                   ecs.transitEncryption := "ENABLED";
                   ecs.authorizationConfig :=
                     {| ecs.accessPointId := efs.accessPointId dogeEfsAp;
                        ecs.iam := "ENABLED" |} |} |} ];
       ecs.containers := [container] |} in
  (* Fargate service *)
  let service : ecs.FargateService :=
    {| ecs.serviceNode := node "DogecoinService";
       ecs.cluster := cluster;
       ecs.taskDefinition := taskDef;
       ecs.desiredCount := desiredCount;
       ecs.enableExecuteCommand := true;
       ecs.securityGroups := [DogecoinStackProps.dogeSecurityGroup props];
       ecs.vpcSubnets := ec2.selected subnets;
       ecs.assignPublicIp := false;
       ecs.minHealthyPercent := 100;
       ecs.maxHealthyPercent := 200;
       ecs.cloudMapOptions :=
         Some {| ecs.cloudMapName := serviceName;
                 ecs.cloudMapNamespace := DogecoinStackProps.namespace props;
                 ecs.dnsRecordType := servicediscovery.A;
                 ecs.dnsTtl := cdk.seconds (Num 30) |} |} in
  (* Full service discovery DNS name host: service.namespace *)
  let serviceDiscoveryName := serviceName +:+ "." +:+ namespaceName in
  {| stack := this;
     cluster := cluster;
     service := service;
     serviceDiscoveryName := serviceDiscoveryName;
     rpcPort := rpcPort;
     zmqPort := zmqPort;
     dogeEfs := dogeEfs;
     dogeEfsAp := dogeEfsAp;
     ecsExecOperatorPolicy := ecsExecOperatorPolicy;
     logGroup := logGroup;
     outputs :=
       [ {| cdk.outputId := "DogecoinServiceDiscoveryName";
            cdk.value := serviceDiscoveryName |};
         {| cdk.outputId := "DogecoinRpcPort"; cdk.value := String_ rpcPort |};
         {| cdk.outputId := "DogecoinZmqPort"; cdk.value := String_ zmqPort |} ] |}.

(** The containers of the service's task definition. *)
Definition containers (s : t) : list ecs.ContainerDefinition :=
  ecs.containers (ecs.taskDefinition (service s)).

(** The environment of the container named [Dogecoin]. *)
Definition dogecoinEnvironment (s : t) : JsObject.t :=
  match containers s with
  | c :: _ => ecs.environment c
  | [] => []
  end.

End DogecoinStack.

(** ** lib/engine-stack.ts *)

Module DogecoinConnection.

Record t := {
  host : string;
  rpcPort : option number;
  zmqPort : option number;
}.

End DogecoinConnection.

Module EngineStackProps.

Record t := {
  env : option cdk.Environment;
  vpc : ec2.Vpc;
  albSecurityGroup : ec2.SecurityGroup;
  engineSecurityGroup : ec2.SecurityGroup;
  dbHost : string;
  dbPort : option number;
  dbSecret : secretsmanager.ISecret;
  databaseName : option string;
  dogecoin : option DogecoinConnection.t;
  desiredCount : option number;
  cpu : option number;
  memoryMiB : option number;
  engineContainerImage : option ecs.ContainerImage;
  appSubnetSelection : option ec2.SubnetSelection;
  albSubnetSelection : option ec2.SubnetSelection;
}.

End EngineStackProps.

Module EngineStack.

Import EngineStackProps.

Record t := {
  stack : cdk.Stack;
  cluster : ecs.Cluster;
  service : ecs.FargateService;
  loadBalancer : elbv2.ApplicationLoadBalancer;
  httpListener : elbv2.ApplicationListener;
  ecsExecOperatorPolicy : iam.ManagedPolicy;
  logGroup : logs.LogGroup;
  outputs : list cdk.CfnOutput;
}.

Definition constructor (id : string) (props : EngineStackProps.t) : t :=
  let this := cdk.Stack_new id (env props) in
  let node c := {| scope := id; constructId := c |} in
  let databaseName := databaseName props ?? "fractal" in
  (* Compute: ECS cluster + task definition + Fargate service behind ALB *)
  let cluster : ecs.Cluster :=
    {| ecs.clusterNode := node "FractalCluster";
       ecs.clusterVpc := ec2.vpcNode (vpc props);
       ecs.containerInsights := true |} in
  (* IAM roles *)
  let taskExecutionRole : iam.Role :=
    {| iam.roleNode := node "TaskExecutionRole";
       iam.assumedBy := "ecs-tasks.amazonaws.com";
       iam.managedPolicies :=
         [ "service-role/AmazonECSTaskExecutionRolePolicy";
           "AmazonSSMManagedInstanceCore" ];
       iam.roleDescription := None;
       iam.policy := [] |} in
  let taskRole : iam.Role :=
    {| iam.roleNode := node "TaskRole";
       iam.assumedBy := "ecs-tasks.amazonaws.com";
       iam.managedPolicies := [];
       iam.roleDescription :=
         Some "Task role for Fractal Engine (access to Secrets Manager, etc.)";
       iam.policy := [] |} in
  (* Allow the task to read the database credentials secret *)
  let taskRole := secretsmanager.grantRead (dbSecret props) taskRole in
  (* Minimal SSM messages permissions on the task role for ECS Exec *)
  let taskRole :=
    iam.addToPolicy taskRole
      {| iam.actions :=
           [ "ssm:CreateControlChannel"; "ssm:CreateDataChannel";
             "ssm:OpenControlChannel"; "ssm:OpenDataChannel" ];
         iam.resources := ["*"] |} in
  let ecsExecOperatorPolicy : iam.ManagedPolicy :=
    {| iam.policyNode := node "EcsExecOperatorPolicy";
       iam.policyDescription :=
         "Allows operators to run ECS Exec and manage SSM sessions";
       iam.statements :=
         [ {| iam.actions := ["ecs:ExecuteCommand"]; iam.resources := ["*"] |};
           {| iam.actions :=
                [ "ssm:StartSession"; "ssm:DescribeSessions";
                  "ssm:TerminateSession" ];
              iam.resources := ["*"] |};
           {| iam.actions := ["kms:Decrypt"]; iam.resources := ["*"] |} ] |} in
  let logGroup : logs.LogGroup :=
    {| logs.logGroupNode := node "EngineLogs";
       logs.retention := logs.ONE_WEEK;
       logs.removalPolicy := cdk.DESTROY |} in
  let image :=
    engineContainerImage props ??
      ecs.fromRegistry "ghcr.io/dogecoinfoundation/fractal-engine:v0.0.1" in
  let container : ecs.ContainerDefinition :=
    {| ecs.containerName := "Engine";
       ecs.image := image;
       ecs.containerCpu := None;
       ecs.containerMemoryLimitMiB := None;
       ecs.logging :=
         {| ecs.streamPrefix := "engine";
            ecs.logGroup := logs.logGroupNode logGroup |};
       ecs.environment :=
         JsObject.literal
           [ JsObject.prop "RPC_SERVER_HOST" "0.0.0.0";
             JsObject.prop "RPC_SERVER_PORT" "8891";
             JsObject.prop "CORS_ALLOWED_ORIGINS" "*";
             JsObject.prop "DATABASE_HOST" (dbHost props);
             JsObject.prop "DATABASE_PORT" (String_ (dbPort props ?? Num 5432));
             JsObject.prop "DATABASE_NAME" databaseName;
             JsObject.spread (Some
               match dogecoin props with
               | Some d =>
                   if truthy (DogecoinConnection.host d) then
                     JsObject.literal
                       [ JsObject.prop "DOGE_HOST" (DogecoinConnection.host d);
                         JsObject.prop "DOGE_PORT"
                           (String_ (DogecoinConnection.rpcPort d ?? Num 22555));
                         JsObject.prop "DOGECOIN_ZMQ_PORT"
                           (String_ (DogecoinConnection.zmqPort d ?? Num 28000)) ]
                   else JsObject.literal []
               | None => JsObject.literal []
               end) ];
       ecs.secrets :=
         [ ("DATABASE_USERNAME",
            {| ecs.fromSecret := dbSecret props; ecs.field := "username" |});
           ("DATABASE_PASSWORD",
            {| ecs.fromSecret := dbSecret props; ecs.field := "password" |}) ];
       ecs.essential := true;
       ecs.portMappings := [];
       ecs.mountPoints := [] |} in
  let container :=
    ecs.addPortMappings container
      [ {| ecs.containerPort := Num 8891; ecs.protocol := ecs.TCP |} ] in
  let container :=
    ecs.addPortMappings container
      [ {| ecs.containerPort := Num 8086; ecs.protocol := ecs.TCP |} ] in
  (* Task definition, with the container added to it *)
  let taskDef : ecs.FargateTaskDefinition :=
    {| ecs.taskDefNode := node "FractalTaskDef";
       ecs.cpu := cpu props ?? Num 512;
       ecs.memoryLimitMiB := memoryMiB props ?? Num 1024;
       ecs.executionRole := taskExecutionRole;
       ecs.taskRole := taskRole;
       ecs.volumes := [];
       ecs.containers := [container] |} in
  let service : ecs.FargateService :=
    {| ecs.serviceNode := node "FractalService";
       ecs.cluster := cluster;
       ecs.taskDefinition := taskDef;
       ecs.desiredCount := desiredCount props ?? Num 1;
       ecs.enableExecuteCommand := true;
       ecs.securityGroups := [engineSecurityGroup props];
       ecs.vpcSubnets :=
         appSubnetSelection props ?? ec2.bySubnetType ec2.PRIVATE_WITH_EGRESS;
       ecs.assignPublicIp := false;
       ecs.minHealthyPercent := 100;
       ecs.maxHealthyPercent := 200;
       ecs.cloudMapOptions := None |} in
  (* Application Load Balancer in public subnets *)
  let loadBalancer : elbv2.ApplicationLoadBalancer :=
    {| elbv2.albNode := node "FractalAlb";
       elbv2.albVpc := ec2.vpcNode (vpc props);
       elbv2.internetFacing := true;
       elbv2.securityGroup := albSecurityGroup props;
       elbv2.vpcSubnets :=
         albSubnetSelection props ?? ec2.bySubnetType ec2.PUBLIC |} in
  let httpListener : elbv2.ApplicationListener :=
    {| elbv2.listenerId := "HttpListener";
       elbv2.listenerPort := 80;
       elbv2.listenerProtocol := None;
       elbv2.open := true;
       elbv2.targetGroups := [] |} in
  let tg : elbv2.ApplicationTargetGroup :=
    {| elbv2.tgNode := node "EngineTargetGroup";
       elbv2.tgVpc := ec2.vpcNode (vpc props);
       elbv2.tgPort := 8891;
       elbv2.tgProtocol := elbv2.HTTP;
       elbv2.targetType := elbv2.IP;
       elbv2.healthCheck :=
         {| elbv2.path := "/health";
            elbv2.healthyHttpCodes := "200";
            elbv2.interval := cdk.seconds (Num 30) |};
       elbv2.deregistrationDelay := cdk.seconds (Num 10);
       elbv2.targets := [] |} in
  (* Attach the service to the target group *)
  let tg := elbv2.attach tg service in
  (* Add the target group to the listener *)
  let httpListener := elbv2.addTargetGroups httpListener "AttachEngineTg" [tg] in
  {| stack := this;
     cluster := cluster;
     service := service;
     loadBalancer := loadBalancer;
     httpListener := httpListener;
     ecsExecOperatorPolicy := ecsExecOperatorPolicy;
     logGroup := logGroup;
     outputs :=
       [ {| cdk.outputId := "AlbDnsName";
            cdk.value := elbv2.loadBalancerDnsName loadBalancer |};
         {| cdk.outputId := "EcsExecOperatorPolicyArn";
            cdk.value := iam.managedPolicyArn ecsExecOperatorPolicy |} ] |}.

(** [engine.addDependency(target)], inherited from [cdk.Stack]. *)
Definition addDependency (s : t) (target : cdk.Stack) : t :=
  {| stack := cdk.addDependency (stack s) target;
     cluster := cluster s; service := service s;
     loadBalancer := loadBalancer s; httpListener := httpListener s;
     ecsExecOperatorPolicy := ecsExecOperatorPolicy s;
     logGroup := logGroup s; outputs := outputs s |}.

(** The containers of the service's task definition. *)
Definition containers (s : t) : list ecs.ContainerDefinition :=
  ecs.containers (ecs.taskDefinition (service s)).

(** The environment of the container named [Engine]. *)
Definition engineEnvironment (s : t) : JsObject.t :=
  match containers s with
  | c :: _ => ecs.environment c
  | [] => []
  end.

Definition engineSecrets (s : t) : list (string * ecs.Secret) :=
  match containers s with
  | c :: _ => ecs.secrets c
  | [] => []
  end.

(** The target groups behind the load balancer's listener. *)
Definition listenerTargetGroups (s : t) : list elbv2.ApplicationTargetGroup :=
  concat (map snd (elbv2.targetGroups (httpListener s))).

End EngineStack.

(** ** bin: the composition of the four stacks *)

Module App.

Record t := {
  network : NetworkStack.t;
  doge : DogecoinStack.t;
  db : DatabaseStack.t;
  engine : EngineStack.t;
}.

(** The four stacks the program declares, given [process.env], of which it
    reads the account and the region.  [new cdk.App()] is the root the
    stacks are attached to; what the library itself reads when it makes the
    root (context, output directory) is not part of this record. *)
Definition app (process_env : gmap string string) : t :=
  let env : cdk.Environment :=
    {| cdk.account := process_env !! "CDK_DEFAULT_ACCOUNT";
       cdk.region := process_env !! "CDK_DEFAULT_REGION" |} in
  let network :=
    NetworkStack.constructor "NetworkStack"
      (Some {| NetworkStackProps.env := Some env;
               NetworkStackProps.cidr := None;
               NetworkStackProps.natGateways := None |}) in
  let doge :=
    DogecoinStack.constructor "DogecoinStack"
      {| DogecoinStackProps.env := Some env;
         DogecoinStackProps.vpc := NetworkStack.vpc network;
         DogecoinStackProps.dogeSecurityGroup := NetworkStack.dogeSg network;
         DogecoinStackProps.namespace := NetworkStack.namespace network;
         DogecoinStackProps.subnetSelection := None;
         DogecoinStackProps.desiredCount := None;
         DogecoinStackProps.cpu := None;
         DogecoinStackProps.memoryMiB := None;
         DogecoinStackProps.containerImage := None;
         DogecoinStackProps.namespaceName := None;
         DogecoinStackProps.serviceName := None;
         DogecoinStackProps.rpcPort := None;
         DogecoinStackProps.p2pPort := None;
         DogecoinStackProps.zmqPort := None;
         DogecoinStackProps.environment := None |} in
  let db :=
    DatabaseStack.constructor "DatabaseStack"
      {| DatabaseStackProps.env := Some env;
         DatabaseStackProps.vpc := NetworkStack.vpc network;
         DatabaseStackProps.rdsSecurityGroup := NetworkStack.rdsSg network;
         DatabaseStackProps.databaseName := None;
         DatabaseStackProps.dbSubnetSelection := None;
         DatabaseStackProps.instanceType := None;
         DatabaseStackProps.multiAz := None;
         DatabaseStackProps.allocatedStorageGiB := None;
         DatabaseStackProps.maxAllocatedStorageGiB := None;
         DatabaseStackProps.deletionProtection := None;
         DatabaseStackProps.backupRetentionDays := None;
         DatabaseStackProps.credentialsSecretName := None |} in
  let engine :=
    EngineStack.constructor "EngineStack"
      {| EngineStackProps.env := Some env;
         EngineStackProps.vpc := NetworkStack.vpc network;
         EngineStackProps.albSecurityGroup := NetworkStack.albSg network;
         EngineStackProps.engineSecurityGroup := NetworkStack.engineSg network;
         EngineStackProps.dbHost := rds.hostname (DatabaseStack.rdsInstance db);
         EngineStackProps.dbPort := Some (rds.port (DatabaseStack.rdsInstance db));
         EngineStackProps.dbSecret := DatabaseStack.rdsSecret db;
         EngineStackProps.databaseName := None;
         EngineStackProps.dogecoin :=
           Some {| DogecoinConnection.host := DogecoinStack.serviceDiscoveryName doge;
                   DogecoinConnection.rpcPort := Some (DogecoinStack.rpcPort doge);
                   DogecoinConnection.zmqPort := Some (DogecoinStack.zmqPort doge) |};
         EngineStackProps.desiredCount := None;
         EngineStackProps.cpu := None;
         EngineStackProps.memoryMiB := None;
         EngineStackProps.engineContainerImage := None;
         EngineStackProps.appSubnetSelection := None;
         EngineStackProps.albSubnetSelection := None |} in
  (* Ensure Dogecoin deploys before the Engine *)
  let engine := EngineStack.addDependency engine (DogecoinStack.stack doge) in
  let engine := EngineStack.addDependency engine (DatabaseStack.stack db) in
  {| network := network; doge := doge; db := db; engine := engine |}.

(** *** Security groups of the resource graph *)

(** Every security group of the resource graph: the four of the network
    stack, the one of each interface endpoint of its VPC, and the one of the
    Dogecoin file system. *)
Definition securityGroups (a : t) : list ec2.SecurityGroup :=
  NetworkStack.securityGroups (network a) ++
  map ec2.endpointGroup
    (ec2.interfaceEndpoints (NetworkStack.vpc (network a))) ++
  [efs.connections (DogecoinStack.dogeEfs (doge a))].

(** A rule admits traffic from the members of group [src], whose VPC has the
    address block [block] (if it is known), on TCP port [p] when its port
    is [p] and its peer is [src], any IPv4 address, or that address
    block. *)
Definition admits (r : ec2.IngressRule) (src : ConstructNode)
    (block : option string) (p : Z) : bool :=
  match ec2.port r with
  | ec2.tcp q => bool_decide (q = p)
  end &&
  match ec2.peer r with
  | ec2.anyIpv4 => true
  | ec2.securityGroupPeer sg => bool_decide (sg = src)
  | ec2.ipv4 c => bool_decide (block = Some c)
  end.

(** The ingress rules of the resource graph, each with the group it
    belongs to. *)
Definition ingressRules (a : t) : list (ConstructNode * ec2.IngressRule) :=
  flat_map (fun sg => map (fun r => (ec2.sgNode sg, r)) (ec2.ingress sg))
    (securityGroups a).

(** The address block of the VPC that group [src] of the resource graph
    lies in. *)
Definition sourceBlock (a : t) (src : ConstructNode) : option string :=
  (fun sg => ec2.cidrBlockOf (ec2.sgVpc sg)) <$>
  find (fun sg => bool_decide (ec2.sgNode sg = src)) (securityGroups a).

(** Ingress from group [src] into group [dst] on TCP port [p] is permitted
    when some rule of [dst] admits it; with no such rule it is denied. *)
Definition permitted (a : t) (src dst : ConstructNode) (p : Z) : bool :=
  existsb
    (fun tr => bool_decide (fst tr = dst) &&
               admits (snd tr) src (sourceBlock a src) p)
    (ingressRules a).

(** Whether the rules of one group admit traffic from the members of group
    [src], a group of the same VPC, on TCP port [p]. *)
Definition groupAdmits (sg : ec2.SecurityGroup) (src : ConstructNode) (p : Z)
    : bool :=
  existsb (fun r => admits r src (Some (ec2.cidrBlockOf (ec2.sgVpc sg))) p)
    (ec2.ingress sg).

(** *** Deployment order *)

(** The constructs a stack's resources are configured with. *)
Definition dogeReferences (s : DogecoinStack.t) : list ConstructNode :=
  [ ecs.clusterVpc (DogecoinStack.cluster s);
    efs.fsVpc (DogecoinStack.dogeEfs s);
    ec2.sgVpc (efs.connections (DogecoinStack.dogeEfs s)) ] ++
  map ec2.sgNode (ecs.securityGroups (DogecoinStack.service s)) ++
  match ecs.cloudMapOptions (DogecoinStack.service s) with
  | Some o => [servicediscovery.namespaceNode (ecs.cloudMapNamespace o)]
  | None => []
  end.

Definition dbReferences (s : DatabaseStack.t) : list ConstructNode :=
  rds.vpc (DatabaseStack.rdsInstance s) ::
  map ec2.sgNode (rds.securityGroups (DatabaseStack.rdsInstance s)).

Definition engineReferences (s : EngineStack.t) : list ConstructNode :=
  [ ecs.clusterVpc (EngineStack.cluster s);
    elbv2.albVpc (EngineStack.loadBalancer s);
    ec2.sgNode (elbv2.securityGroup (EngineStack.loadBalancer s)) ] ++
  map ec2.sgNode (ecs.securityGroups (EngineStack.service s)) ++
  map (fun kv => secretsmanager.secretNode (ecs.fromSecret (snd kv)))
    (EngineStack.engineSecrets s).

(** A stack depends on the stacks it named with [addDependency] and on
    the stacks that own a construct it refers to. *)
Definition stackDependencies (s : cdk.Stack) (refs : list ConstructNode)
    : list (string * string) :=
  map (fun d => (cdk.stackName s, d))
    (cdk.dependencies s ++
     filter (fun d => d ≠ cdk.stackName s) (map scope refs)).

(** The pairs (stack, stack it depends on) of the composition. *)
Definition dependencies (a : t) : list (string * string) :=
  stackDependencies (NetworkStack.stack (network a)) [] ++
  stackDependencies (DogecoinStack.stack (doge a)) (dogeReferences (doge a)) ++
  stackDependencies (DatabaseStack.stack (db a)) (dbReferences (db a)) ++
  stackDependencies (EngineStack.stack (engine a)) (engineReferences (engine a)).

Definition stackNames (a : t) : list string :=
  [ cdk.stackName (NetworkStack.stack (network a));
    cdk.stackName (DogecoinStack.stack (doge a));
    cdk.stackName (DatabaseStack.stack (db a));
    cdk.stackName (EngineStack.stack (engine a)) ].

Fixpoint position (x : string) (order : list string) : option nat :=
  match order with
  | [] => None
  | y :: order' =>
      if decide (x = y) then Some 0 else S <$> position x order'
  end.

(** [x] is deployed, and strictly earlier than [y]. *)
Definition deploysBefore (x y : string) (order : list string) : bool :=
  match position x order, position y order with
  | Some i, Some j => bool_decide (i < j)
  | _, _ => false
  end.

(** A deployment order lists every stack once, each after the stacks it
    depends on. *)
Definition deploymentOrder (a : t) (order : list string) : bool :=
  bool_decide (NoDup order) &&
  forallb (fun s => bool_decide (s ∈ order)) (stackNames a) &&
  forallb (fun s => bool_decide (s ∈ stackNames a)) order &&
  forallb (fun sd => deploysBefore (snd sd) (fst sd) order) (dependencies a).

End App.

(** ** What the specification names *)

Module Spec.

(** The four tiers' security groups and the file system's group. *)
Definition albSg : ConstructNode :=
  {| scope := "NetworkStack"; constructId := "AlbSg" |}.
Definition engineSg : ConstructNode :=
  {| scope := "NetworkStack"; constructId := "EngineSg" |}.
Definition rdsSg : ConstructNode :=
  {| scope := "NetworkStack"; constructId := "RdsSg" |}.
Definition dogeSg : ConstructNode :=
  {| scope := "NetworkStack"; constructId := "DogeSg" |}.
Definition efsSg : ConstructNode :=
  {| scope := "DogecoinStack"; constructId := "DogecoinEfs/EfsSecurityGroup" |}.

(** The VPC and its address block. *)
Definition vpc : ConstructNode :=
  {| scope := "NetworkStack"; constructId := "FractalVpc" |}.
Definition vpcBlock : string := ec2.cidrBlockOf vpc.

(** The groups of the seven interface endpoints, and all twelve groups. *)
Definition endpointSg (id : string) : ConstructNode :=
  {| scope := "NetworkStack";
     constructId := "FractalVpc/" +:+ id +:+ "/SecurityGroup" |}.

Definition endpointGroups : list ConstructNode :=
  map endpointSg
    [ "EcrDockerEndpoint"; "EcrApiEndpoint"; "LogsEndpoint";
      "SecretsManagerEndpoint"; "SsmEndpoint"; "SsmMessagesEndpoint";
      "Ec2MessagesEndpoint" ].

Definition groups : list ConstructNode :=
  [albSg; engineSg; rdsSg; dogeSg] ++ endpointGroups ++ [efsSg].

(** The declared paths: ALB→app:8891, app→db:5432,
    app→node:{22555,22556,28000}. *)
Definition declaredPaths : list (ConstructNode * ConstructNode * Z) :=
  [ (albSg, engineSg, 8891%Z);
    (engineSg, rdsSg, 5432%Z);
    (engineSg, dogeSg, 22555%Z);
    (engineSg, dogeSg, 22556%Z);
    (engineSg, dogeSg, 28000%Z) ].

Definition declaredPath (src dst : ConstructNode) (p : Z) : bool :=
  bool_decide ((src, dst, p) ∈ declaredPaths).

(** A Dogecoin connection with a host is supplied. *)
Definition hostSupplied (props : EngineStackProps.t) : bool :=
  match EngineStackProps.dogecoin props with
  | Some d => bool_decide (DogecoinConnection.host d ≠ "")
  | None => false
  end.

(** The environment names every engine container has, and the three that
    come with a Dogecoin connection. *)
Definition requiredNames : list string :=
  [ "RPC_SERVER_HOST"; "RPC_SERVER_PORT"; "CORS_ALLOWED_ORIGINS";
    "DATABASE_HOST"; "DATABASE_PORT"; "DATABASE_NAME" ].
Definition dogecoinNames : list string :=
  [ "DOGE_HOST"; "DOGE_PORT"; "DOGECOIN_ZMQ_PORT" ].
Definition secretNames : list string :=
  [ "DATABASE_USERNAME"; "DATABASE_PASSWORD" ].

(** The characters the generated credentials leave out. *)
Definition excludedCharacters : list ascii :=
  [ dquote; "@"; "/"; "\"; ":"; "?"; "#"; "["; "]"; "{"; "}"; "|"; "^";
    "~"; ";"; "="; "%"; "&"; "+"; "("; ")"; "<"; ">" ]%char.


(** The same engine props with another [dogecoin] connection. *)
Definition withDogecoin (props : EngineStackProps.t)
    (d : option DogecoinConnection.t) : EngineStackProps.t :=
  {| EngineStackProps.env := EngineStackProps.env props;
     EngineStackProps.vpc := EngineStackProps.vpc props;
     EngineStackProps.albSecurityGroup := EngineStackProps.albSecurityGroup props;
     EngineStackProps.engineSecurityGroup :=
       EngineStackProps.engineSecurityGroup props;
     EngineStackProps.dbHost := EngineStackProps.dbHost props;
     EngineStackProps.dbPort := EngineStackProps.dbPort props;
     EngineStackProps.dbSecret := EngineStackProps.dbSecret props;
     EngineStackProps.databaseName := EngineStackProps.databaseName props;
     EngineStackProps.dogecoin := d;
     EngineStackProps.desiredCount := EngineStackProps.desiredCount props;
     EngineStackProps.cpu := EngineStackProps.cpu props;
     EngineStackProps.memoryMiB := EngineStackProps.memoryMiB props;
     EngineStackProps.engineContainerImage :=
       EngineStackProps.engineContainerImage props;
     EngineStackProps.appSubnetSelection :=
       EngineStackProps.appSubnetSelection props;
     EngineStackProps.albSubnetSelection :=
       EngineStackProps.albSubnetSelection props |}.

End Spec.

(** ** Sample configurations *)

Module Sample.

Definition network : NetworkStack.t :=
  NetworkStack.constructor "NetworkStack" None.

Definition databaseProps (name : option string)
    (sel : option ec2.SubnetSelection) : DatabaseStackProps.t :=
  {| DatabaseStackProps.env := None;
     DatabaseStackProps.vpc := NetworkStack.vpc network;
     DatabaseStackProps.rdsSecurityGroup := NetworkStack.rdsSg network;
     DatabaseStackProps.databaseName := name;
     DatabaseStackProps.dbSubnetSelection := sel;
     DatabaseStackProps.instanceType := None;
     DatabaseStackProps.multiAz := None;
     DatabaseStackProps.allocatedStorageGiB := None;
     DatabaseStackProps.maxAllocatedStorageGiB := None;
     DatabaseStackProps.deletionProtection := None;
     DatabaseStackProps.backupRetentionDays := None;
     DatabaseStackProps.credentialsSecretName := None |}.

Definition database (name : option string) : DatabaseStack.t :=
  DatabaseStack.constructor "DatabaseStack" (databaseProps name None).

Definition engineProps (name : option string) (port : option number)
    (dogecoin : option DogecoinConnection.t) : EngineStackProps.t :=
  {| EngineStackProps.env := None;
     EngineStackProps.vpc := NetworkStack.vpc network;
     EngineStackProps.albSecurityGroup := NetworkStack.albSg network;
     EngineStackProps.engineSecurityGroup := NetworkStack.engineSg network;
     EngineStackProps.dbHost := "db.internal";
     EngineStackProps.dbPort := port;
     EngineStackProps.dbSecret := DatabaseStack.rdsSecret (database None);
     EngineStackProps.databaseName := name;
     EngineStackProps.dogecoin := dogecoin;
     EngineStackProps.desiredCount := None;
     EngineStackProps.cpu := None;
     EngineStackProps.memoryMiB := None;
     EngineStackProps.engineContainerImage := None;
     EngineStackProps.appSubnetSelection := None;
     EngineStackProps.albSubnetSelection := None |}.

Definition dogecoinProps (service namespace : option string)
    (sel : option ec2.SubnetSelection) : DogecoinStackProps.t :=
  {| DogecoinStackProps.env := None;
     DogecoinStackProps.vpc := NetworkStack.vpc network;
     DogecoinStackProps.dogeSecurityGroup := NetworkStack.dogeSg network;
     DogecoinStackProps.namespace := NetworkStack.namespace network;
     DogecoinStackProps.subnetSelection := sel;
     DogecoinStackProps.desiredCount := None;
     DogecoinStackProps.cpu := None;
     DogecoinStackProps.memoryMiB := None;
     DogecoinStackProps.containerImage := None;
     DogecoinStackProps.namespaceName := namespace;
     DogecoinStackProps.serviceName := service;
     DogecoinStackProps.rpcPort := None;
     DogecoinStackProps.p2pPort := None;
     DogecoinStackProps.zmqPort := None;
     DogecoinStackProps.environment := None |}.

(** Dogecoin props with an environment of their own and an RPC port. *)
Definition nodeEnvironment : JsObject.t :=
  [("CHAIN", "testnet"); ("DATADIR", "/tmp/doge"); ("RPC_USER", "engine")].

Definition dogecoinPropsWith (environment : option JsObject.t)
    (rpcPort : option number) : DogecoinStackProps.t :=
  {| DogecoinStackProps.env := None;
     DogecoinStackProps.vpc := NetworkStack.vpc network;
     DogecoinStackProps.dogeSecurityGroup := NetworkStack.dogeSg network;
     DogecoinStackProps.namespace := NetworkStack.namespace network;
     DogecoinStackProps.subnetSelection := None;
     DogecoinStackProps.desiredCount := None;
     DogecoinStackProps.cpu := None;
     DogecoinStackProps.memoryMiB := None;
     DogecoinStackProps.containerImage := None;
     DogecoinStackProps.namespaceName := None;
     DogecoinStackProps.serviceName := None;
     DogecoinStackProps.rpcPort := rpcPort;
     DogecoinStackProps.p2pPort := None;
     DogecoinStackProps.zmqPort := None;
     DogecoinStackProps.environment := environment |}.

(** Connections to a Dogecoin node: without a host, and with one. *)
Definition noHost : DogecoinConnection.t :=
  {| DogecoinConnection.host := "";
     DogecoinConnection.rpcPort := Some (Num 18332);
     DogecoinConnection.zmqPort := None |}.

Definition nodeHost : DogecoinConnection.t :=
  {| DogecoinConnection.host := "node.chain.internal";
     DogecoinConnection.rpcPort := None;
     DogecoinConnection.zmqPort := Some (Num 29000) |}.

End Sample.

(** * Properties *)

(** ** Objects *)

Section JsObjectFacts.

Import JsObject.

Lemma get_set_eq k v o : get k (set k v o) = Some v.
Proof.
  induction o as [|[k' v'] o IH]; simpl.
  - by rewrite decide_True.
  - destruct (decide (k = k')) as [->|Hne]; simpl.
    + by rewrite decide_True.
    + by rewrite decide_False.
Qed.

Lemma get_set_ne k k' v o : k ≠ k' → get k' (set k v o) = get k' o.
Proof.
  intros Hne. induction o as [|[k0 v0] o IH]; simpl.
  - by rewrite decide_False.
  - destruct (decide (k = k0)) as [->|Hk]; simpl.
    + by rewrite !decide_False.
    + destruct (decide (k' = k0)); done.
Qed.

Lemma elem_of_keys_set k k' v o :
  k' ∈ keys (set k v o) ↔ k' = k ∨ k' ∈ keys o.
Proof.
  unfold keys. induction o as [|[k0 v0] o IH]; simpl.
  - rewrite list_elem_of_singleton, elem_of_nil. tauto.
  - destruct (decide (k = k0)) as [->|Hk]; simpl.
    + rewrite !elem_of_cons. tauto.
    + rewrite !elem_of_cons, IH. tauto.
Qed.

(** Assignment keeps the keys of an object distinct. *)
Lemma NoDup_keys_set k v o : NoDup (keys o) → NoDup (keys (set k v o)).
Proof.
  unfold keys. induction o as [|[k0 v0] o IH]; simpl; intros Hnd.
  - apply NoDup_singleton.
  - destruct (decide (k = k0)) as [->|Hk]; simpl; [done|].
    apply NoDup_cons in Hnd as [Hnotin Hnd].
    apply NoDup_cons. split; [|by apply IH].
    intros Hin. apply (elem_of_keys_set k k0 v o) in Hin as [->|Hin]; done.
Qed.

Lemma NoDup_keys_assign dst src :
  NoDup (keys dst) → NoDup (keys (assign dst src)).
Proof.
  unfold assign. revert dst.
  induction src as [|[k v] src IH]; simpl; intros dst Hnd; [done|].
  by apply IH, NoDup_keys_set.
Qed.

(** An object literal has each of its keys once, whatever it spreads. *)
Lemma NoDup_keys_literal ms : NoDup (keys (literal ms)).
Proof.
  unfold literal.
  assert (∀ acc, NoDup (keys acc) →
                 NoDup (keys (fold_left add_member ms acc))) as Hfold.
  { induction ms as [|m ms IH]; simpl; intros acc Hnd; [done|].
    apply IH. destruct m; simpl.
    - by apply NoDup_keys_set.
    - by apply NoDup_keys_assign. }
  apply Hfold, NoDup_nil_2.
Qed.

Lemma occurrences_absent k o : k ∉ keys o → occurrences k o = 0.
Proof.
  unfold occurrences, keys.
  induction o as [|[k0 v0] o IH]; intros Hn; [done|].
  simpl in Hn. apply not_elem_of_cons in Hn as [Hne Hn].
  rewrite filter_cons_False by (simpl; congruence). by apply IH.
Qed.

Lemma occurrences_NoDup k o :
  NoDup (keys o) → occurrences k o = if has k o then 1 else 0.
Proof.
  unfold has. induction o as [|[k0 v0] o IH]; intros Hnd; [done|].
  simpl in Hnd. apply NoDup_cons in Hnd as [Hnotin Hnd].
  unfold occurrences. cbn [get].
  destruct (decide (k = k0)) as [->|Hk].
  - rewrite filter_cons_True by done. cbn [length].
    f_equal. by apply occurrences_absent.
  - rewrite filter_cons_False by (simpl; congruence).
    by apply IH.
Qed.

End JsObjectFacts.

(** ** Subnet selection *)



(** ** The engine container's environment *)

Section EngineEnvironment.

Variables (id : string) (props : EngineStackProps.t).

(** The environment, property by property. *)
Lemma engineEnvironment_unfold :
  EngineStack.engineEnvironment (EngineStack.constructor id props) =
  [ ("RPC_SERVER_HOST", "0.0.0.0"); ("RPC_SERVER_PORT", "8891");
    ("CORS_ALLOWED_ORIGINS", "*");
    ("DATABASE_HOST", EngineStackProps.dbHost props);
    ("DATABASE_PORT", String_ (EngineStackProps.dbPort props ?? Num 5432));
    ("DATABASE_NAME", EngineStackProps.databaseName props ?? "fractal") ] ++
  match EngineStackProps.dogecoin props with
  | Some d =>
      if truthy (DogecoinConnection.host d) then
        [ ("DOGE_HOST", DogecoinConnection.host d);
          ("DOGE_PORT", String_ (DogecoinConnection.rpcPort d ?? Num 22555));
          ("DOGECOIN_ZMQ_PORT",
           String_ (DogecoinConnection.zmqPort d ?? Num 28000)) ]
      else []
  | None => []
  end.
Proof.
  unfold EngineStack.engineEnvironment, EngineStack.containers,
    EngineStack.constructor.
  cbn [EngineStack.service ecs.taskDefinition ecs.containers
       ecs.addPortMappings ecs.environment].
  destruct (EngineStackProps.dogecoin props) as [d|]; [|reflexivity].
  destruct (truthy (DogecoinConnection.host d)); reflexivity.
Qed.

(** The code's test of the host is the test for a non-empty host. *)
Lemma truthy_hostSupplied :
  Spec.hostSupplied props =
  match EngineStackProps.dogecoin props with
  | Some d => truthy (DogecoinConnection.host d)
  | None => false
  end.
Proof.
  unfold Spec.hostSupplied.
  destruct (EngineStackProps.dogecoin props) as [d|]; [|done].
  destruct (DogecoinConnection.host d); cbn [truthy];
    case_bool_decide; congruence.
Qed.

End EngineEnvironment.

(** ** The database name (C1) *)

(** C1, as stated, fails: the database stack and the engine stack each read
    a [databaseName] option of their own.  With [ledger] given to the
    database stack and nothing to the engine stack, the instance is named
    [ledger] while the container's [DATABASE_NAME] is [fractal]. *)
Lemma database_name_options_differ :
  let name :=
    rds.databaseName
      (DatabaseStack.rdsInstance
         (DatabaseStack.constructor "DatabaseStack"
            (Sample.databaseProps (Some "ledger") None))) in
  let var :=
    JsObject.get "DATABASE_NAME"
      (EngineStack.engineEnvironment
         (EngineStack.constructor "EngineStack"
            (Sample.engineProps None None None))) in
  name = "ledger" ∧ var = Some "fractal" ∧ var ≠ Some name.
Proof. vm_compute. split_and!; [reflexivity..|discriminate]. Qed.

(** C1, amended: when the database stack and the engine stack are given the
    same [databaseName] option (the same string, or both none), the name of
    the database instance is that option, or [fractal] when it is omitted,
    and the container's [DATABASE_NAME] is that same name. *)
Theorem database_name_same_option (id1 id2 : string)
    (dprops : DatabaseStackProps.t) (eprops : EngineStackProps.t) :
  DatabaseStackProps.databaseName dprops = EngineStackProps.databaseName eprops →
  let name :=
    rds.databaseName
      (DatabaseStack.rdsInstance (DatabaseStack.constructor id1 dprops)) in
  name = DatabaseStackProps.databaseName dprops ?? "fractal" ∧
  JsObject.get "DATABASE_NAME"
    (EngineStack.engineEnvironment (EngineStack.constructor id2 eprops)) =
  Some name.
Proof.
  intros Hsame name. subst name. split; [reflexivity|].
  rewrite engineEnvironment_unfold.
  cbn [DatabaseStack.constructor DatabaseStack.rdsInstance rds.databaseName].
  rewrite Hsame. reflexivity.
Qed.

Lemma database_name_same_option_witness :
  let dprops := Sample.databaseProps (Some "ledger") None in
  let eprops := Sample.engineProps (Some "ledger") None None in
  DatabaseStackProps.databaseName dprops = EngineStackProps.databaseName eprops ∧
  JsObject.get "DATABASE_NAME"
    (EngineStack.engineEnvironment (EngineStack.constructor "EngineStack" eprops)) =
  Some "ledger".
Proof.
  split; [reflexivity|].
  apply (database_name_same_option "DatabaseStack" "EngineStack"
           (Sample.databaseProps (Some "ledger") None)
           (Sample.engineProps (Some "ledger") None None)).
  reflexivity.
Defined.

(** The composition sets neither option: both names are [fractal]. *)
Lemma app_database_name (process_env : gmap string string) :
  let a := App.app process_env in
  rds.databaseName (DatabaseStack.rdsInstance (App.db a)) = "fractal" ∧
  JsObject.get "DATABASE_NAME" (EngineStack.engineEnvironment (App.engine a)) =
    Some "fractal".
Proof. split; reflexivity. Qed.

(** ** Security groups (C2) *)

Lemma app_securityGroups (process_env : gmap string string) :
  map (fun sg => (ec2.sgNode sg, ec2.sgVpc sg))
    (App.securityGroups (App.app process_env)) =
  map (fun g => (g, Spec.vpc)) Spec.groups.
Proof. vm_compute. reflexivity. Qed.

Lemma app_ingressRules (process_env : gmap string string) :
  App.ingressRules (App.app process_env) =
  [ (Spec.albSg,
     {| ec2.peer := ec2.anyIpv4; ec2.port := ec2.tcp 80;
        ec2.ruleDescription := "HTTP from anywhere" |});
    (Spec.engineSg,
     {| ec2.peer := ec2.securityGroupPeer Spec.albSg; ec2.port := ec2.tcp 8891;
        ec2.ruleDescription := "Engine RPC from ALB only" |});
    (Spec.rdsSg,
     {| ec2.peer := ec2.securityGroupPeer Spec.engineSg; ec2.port := ec2.tcp 5432;
        ec2.ruleDescription := "Postgres from Engine only" |});
    (Spec.dogeSg,
     {| ec2.peer := ec2.securityGroupPeer Spec.engineSg; ec2.port := ec2.tcp 22555;
        ec2.ruleDescription := "Dogecoin RPC from Engine only" |});
    (Spec.dogeSg,
     {| ec2.peer := ec2.securityGroupPeer Spec.engineSg; ec2.port := ec2.tcp 22556;
        ec2.ruleDescription := "Dogecoin P2P from Engine only" |});
    (Spec.dogeSg,
     {| ec2.peer := ec2.securityGroupPeer Spec.engineSg; ec2.port := ec2.tcp 28000;
        ec2.ruleDescription := "Dogecoin ZMQ from Engine only" |}) ] ++
  map (fun g =>
         (g, {| ec2.peer := ec2.ipv4 Spec.vpcBlock; ec2.port := ec2.tcp 443;
                ec2.ruleDescription := "from " +:+ Spec.vpcBlock +:+ ":443" |}))
    Spec.endpointGroups ++
  [ (Spec.efsSg,
     {| ec2.peer := ec2.securityGroupPeer Spec.dogeSg; ec2.port := ec2.tcp 2049;
        ec2.ruleDescription := "Allow NFS from Dogecoin tasks" |}) ].
Proof. vm_compute. reflexivity. Qed.

(** A group of the resource graph lies in the one VPC; other constructs
    have no address block. *)
Lemma app_sourceBlock (process_env : gmap string string) (src : ConstructNode) :
  App.sourceBlock (App.app process_env) src =
  if bool_decide (src ∈ Spec.groups) then Some Spec.vpcBlock else None.
Proof.
  unfold App.sourceBlock.
  assert (Hfind : ∀ l : list ec2.SecurityGroup,
            (fun sg => ec2.cidrBlockOf (ec2.sgVpc sg)) <$>
              find (fun sg => bool_decide (ec2.sgNode sg = src)) l =
            snd <$> find (fun gv => bool_decide (fst gv = src))
                      (map (fun sg => (ec2.sgNode sg,
                                       ec2.cidrBlockOf (ec2.sgVpc sg))) l)).
  { induction l as [|sg l IH]; [done|]. cbn [map find fst].
    case_bool_decide; [done|]. exact IH. }
  rewrite Hfind.
  assert (Hmap : map (fun sg => (ec2.sgNode sg, ec2.cidrBlockOf (ec2.sgVpc sg)))
                   (App.securityGroups (App.app process_env)) =
                 map (fun g => (g, Spec.vpcBlock)) Spec.groups).
  { vm_compute. reflexivity. }
  rewrite Hmap. clear Hfind Hmap.
  induction Spec.groups as [|g gs IH]; [done|].
  cbn [map find fst]. destruct (decide (g = src)) as [->|Hne].
  - rewrite !bool_decide_eq_true_2; [done|constructor|done].
  - rewrite (bool_decide_eq_false_2 (g = src)) by done. rewrite IH.
    apply (f_equal (fun b : bool => if b then Some Spec.vpcBlock else None)).
    apply bool_decide_ext. rewrite elem_of_cons.
    split; [auto|]. intros [->|Hin]; [done|exact Hin].
Qed.

Lemma admits_true (r : ec2.IngressRule) (src : ConstructNode)
    (block : option string) (p : Z) :
  App.admits r src block p = true ↔
  ec2.port r = ec2.tcp p ∧
  (ec2.peer r = ec2.anyIpv4 ∨ ec2.peer r = ec2.securityGroupPeer src ∨
   ∃ c, ec2.peer r = ec2.ipv4 c ∧ block = Some c).
Proof.
  unfold App.admits. rewrite andb_true_iff.
  destruct (ec2.port r) as [q], (ec2.peer r) as [|sg|c];
    rewrite ?bool_decide_eq_true; split.
  - intros [-> _]. auto.
  - intros [[= ->] _]. auto.
  - intros [-> ->]. auto.
  - intros [[= ->] [[=]|[[= ->]|(c & [=] & _)]]]. auto.
  - intros [-> ->]. eauto 6.
  - intros [[= ->] [[=]|[[=]|(c' & [= ->] & ->)]]]. auto.
Qed.

Lemma permitted_unfold (process_env : gmap string string)
    (src dst : ConstructNode) (p : Z) :
  App.permitted (App.app process_env) src dst p = true ↔
  (dst = Spec.albSg ∧ p = 80%Z) ∨
  (dst = Spec.engineSg ∧ p = 8891%Z ∧ src = Spec.albSg) ∨
  (dst = Spec.rdsSg ∧ p = 5432%Z ∧ src = Spec.engineSg) ∨
  (dst = Spec.dogeSg ∧ p = 22555%Z ∧ src = Spec.engineSg) ∨
  (dst = Spec.dogeSg ∧ p = 22556%Z ∧ src = Spec.engineSg) ∨
  (dst = Spec.dogeSg ∧ p = 28000%Z ∧ src = Spec.engineSg) ∨
  (dst = Spec.efsSg ∧ p = 2049%Z ∧ src = Spec.dogeSg) ∨
  (dst ∈ Spec.endpointGroups ∧ p = 443%Z ∧ src ∈ Spec.groups).
Proof.
  unfold App.permitted.
  rewrite existsb_exists, app_ingressRules, app_sourceBlock.
  split.
  - intros ([t r] & Hin & Hok).
    rewrite andb_true_iff, bool_decide_eq_true, admits_true in Hok.
    cbn [fst snd] in Hok. destruct Hok as (-> & Hport & Hpeer).
    rewrite !in_app_iff in Hin. destruct Hin as [Hin|[Hin|Hin]].
    + cbn [In] in Hin.
      repeat destruct Hin as [[= <- <-]|Hin]; try destruct Hin;
        cbn [ec2.port ec2.peer] in Hport, Hpeer;
        injection Hport as <-;
        destruct Hpeer as [Hp|[Hp|(c & Hp & _)]];
        try discriminate Hp; try injection Hp as <-; auto 10.
    + apply in_map_iff in Hin as (g & [= <- <-] & Hg).
      cbn [ec2.port ec2.peer] in Hport, Hpeer. injection Hport as <-.
      destruct Hpeer as [Hp|[Hp|(c & Hp & Hblock)]]; try discriminate Hp.
      apply list_elem_of_In in Hg.
      case_bool_decide; [|discriminate Hblock]. auto 10.
    + cbn [In] in Hin. destruct Hin as [[= <- <-]|[]].
      cbn [ec2.port ec2.peer] in Hport, Hpeer. injection Hport as <-.
      destruct Hpeer as [Hp|[Hp|(c & Hp & _)]];
        try discriminate Hp. injection Hp as <-. auto 10.
  - intros Hpath.
    assert (Hrule : ∀ r, In (dst, r) (App.ingressRules (App.app process_env)) →
              ec2.port r = ec2.tcp p →
              (ec2.peer r = ec2.anyIpv4 ∨ ec2.peer r = ec2.securityGroupPeer src ∨
               ∃ c, ec2.peer r = ec2.ipv4 c ∧
                    (if bool_decide (src ∈ Spec.groups)
                     then Some Spec.vpcBlock else None) = Some c) →
              ∃ x, In x (App.ingressRules (App.app process_env)) ∧
                   bool_decide (fst x = dst) &&
                   App.admits (snd x) src
                     (if bool_decide (src ∈ Spec.groups)
                      then Some Spec.vpcBlock else None) p = true).
    { intros r Hin Hport Hpeer. exists (dst, r). split; [exact Hin|].
      rewrite andb_true_iff, bool_decide_eq_true, admits_true. auto. }
    rewrite app_ingressRules in Hrule.
    destruct Hpath as [(-> & ->)|[(-> & -> & ->)|[(-> & -> & ->)|
      [(-> & -> & ->)|[(-> & -> & ->)|[(-> & -> & ->)|[(-> & -> & ->)|
      (Hdst & -> & Hsrc)]]]]]]].
    1-6: eapply Hrule;
      [rewrite !in_app_iff; left; cbn [In];
       let rec go := (left; reflexivity) + (right; go) in go
      |reflexivity|cbn; auto].
    + eapply Hrule;
        [rewrite !in_app_iff; right; right; cbn [In]; eauto|reflexivity|cbn; auto].
    + eapply Hrule.
      * rewrite !in_app_iff. right. left. apply in_map_iff.
        exists dst. split; [reflexivity|]. by apply list_elem_of_In.
      * reflexivity.
      * right. right. exists Spec.vpcBlock. split; [reflexivity|].
        by rewrite bool_decide_eq_true_2.
Qed.

Lemma declaredPath_true (src dst : ConstructNode) (p : Z) :
  Spec.declaredPath src dst p = true ↔
  (dst = Spec.engineSg ∧ p = 8891%Z ∧ src = Spec.albSg) ∨
  (dst = Spec.rdsSg ∧ p = 5432%Z ∧ src = Spec.engineSg) ∨
  (dst = Spec.dogeSg ∧ p = 22555%Z ∧ src = Spec.engineSg) ∨
  (dst = Spec.dogeSg ∧ p = 22556%Z ∧ src = Spec.engineSg) ∨
  (dst = Spec.dogeSg ∧ p = 28000%Z ∧ src = Spec.engineSg).
Proof.
  unfold Spec.declaredPath, Spec.declaredPaths.
  rewrite bool_decide_eq_true, !elem_of_cons, elem_of_nil.
  split; intros H; repeat destruct H as [H|H]; try done.
  all: try (injection H as -> -> ->; tauto).
  all: destruct H as (-> & -> & ->); tauto.
Qed.

(** C2, as stated, fails: the ALB group's rule [HTTP from anywhere] admits
    TCP 80 from every IPv4 source, so ingress from the engine group into the
    ALB group on port 80 is permitted although it is none of the declared
    paths. *)
Lemma engine_reaches_alb_port_80 :
  Spec.engineSg ≠ Spec.albSg ∧
  App.permitted (App.app ∅) Spec.engineSg Spec.albSg 80 = true ∧
  Spec.declaredPath Spec.engineSg Spec.albSg 80 = false.
Proof. split_and!; [discriminate|reflexivity..]. Qed.

(** C2, amended: ingress from one security group into another is permitted
    exactly along the declared paths (ALB to engine on 8891, engine to
    database on 5432, engine to node on 22555, 22556 and 28000), into the ALB
    group on TCP 80 (open to any IPv4 source), from the node group into
    the node's file-system group on the NFS port 2049, and into the group of
    each of the seven VPC interface endpoints on TCP 443 from the VPC's
    address block, that is from each of the twelve groups; every other path
    is denied. *)
Theorem permitted_ingress_paths (process_env : gmap string string)
    (src dst : ConstructNode) (p : Z) :
  App.permitted (App.app process_env) src dst p = true ↔
  Spec.declaredPath src dst p = true ∨
  (dst = Spec.albSg ∧ p = 80%Z) ∨
  (src = Spec.dogeSg ∧ dst = Spec.efsSg ∧ p = 2049%Z) ∨
  (src ∈ Spec.groups ∧ dst ∈ Spec.endpointGroups ∧ p = 443%Z).
Proof.
  rewrite permitted_unfold, declaredPath_true. tauto.
Qed.

(** The twelve groups are the groups of the resource graph; the engine
    group reaches an endpoint group on 443 and on no other port. *)
Lemma engine_reaches_endpoints (process_env : gmap string string) (p : Z) :
  map ec2.sgNode (App.securityGroups (App.app process_env)) = Spec.groups ∧
  (App.permitted (App.app process_env) Spec.engineSg
     (Spec.endpointSg "EcrDockerEndpoint") p = true ↔ p = 443%Z).
Proof.
  split; [vm_compute; reflexivity|].
  rewrite permitted_unfold. split.
  - intros H. repeat destruct H as [H|H];
      try (destruct H as ([=] & _)); by destruct H as (_ & -> & _).
  - intros ->. do 7 right. split_and!; [|done|];
      apply (bool_decide_unpack _); reflexivity.
Qed.

(** ** Deployment order (C3) *)

Lemma app_dependencies (process_env : gmap string string) :
  App.dependencies (App.app process_env) =
  [ ("DogecoinStack", "NetworkStack"); ("DogecoinStack", "NetworkStack");
    ("DogecoinStack", "NetworkStack"); ("DogecoinStack", "NetworkStack");
    ("DogecoinStack", "NetworkStack"); ("DatabaseStack", "NetworkStack");
    ("DatabaseStack", "NetworkStack"); ("EngineStack", "DogecoinStack");
    ("EngineStack", "DatabaseStack"); ("EngineStack", "NetworkStack");
    ("EngineStack", "NetworkStack"); ("EngineStack", "NetworkStack");
    ("EngineStack", "NetworkStack"); ("EngineStack", "DatabaseStack");
    ("EngineStack", "DatabaseStack") ].
Proof. vm_compute. reflexivity. Qed.

Lemma app_stackNames (process_env : gmap string string) :
  App.stackNames (App.app process_env) =
  ["NetworkStack"; "DogecoinStack"; "DatabaseStack"; "EngineStack"].
Proof. reflexivity. Qed.

(** C3: in every deployment order of the composition the engine stack comes
    after the Dogecoin stack and after the database stack, and the network
    stack comes before the Dogecoin stack and before the database stack. *)
Theorem deployment_order_respects_edges (process_env : gmap string string)
    (order : list string) :
  App.deploymentOrder (App.app process_env) order = true →
  App.deploysBefore "DogecoinStack" "EngineStack" order = true ∧
  App.deploysBefore "DatabaseStack" "EngineStack" order = true ∧
  App.deploysBefore "NetworkStack" "DogecoinStack" order = true ∧
  App.deploysBefore "NetworkStack" "DatabaseStack" order = true.
Proof.
  unfold App.deploymentOrder. rewrite app_dependencies.
  intros [_ Hedges]%andb_true_iff.
  cbn [forallb fst snd] in Hedges.
  repeat (apply andb_true_iff in Hedges as [? Hedges]).
  split_and!; assumption.
Qed.

Lemma deployment_order_respects_edges_witness :
  let order := ["NetworkStack"; "DatabaseStack"; "DogecoinStack"; "EngineStack"] in
  App.deploymentOrder (App.app ∅) order = true ∧
  App.deploysBefore "DogecoinStack" "EngineStack" order = true ∧
  App.deploysBefore "DatabaseStack" "EngineStack" order = true ∧
  App.deploysBefore "NetworkStack" "DogecoinStack" order = true ∧
  App.deploysBefore "NetworkStack" "DatabaseStack" order = true.
Proof.
  split; [reflexivity|].
  apply (deployment_order_respects_edges ∅); reflexivity.
Defined.

(** X16: the composition has two deployment orders, and no other: the
    network stack first, the Dogecoin and database stacks in either order,
    the engine stack last. *)
Lemma deployment_orders (process_env : gmap string string) (order : list string) :
  App.deploymentOrder (App.app process_env) order = true ↔
  order = ["NetworkStack"; "DogecoinStack"; "DatabaseStack"; "EngineStack"] ∨
  order = ["NetworkStack"; "DatabaseStack"; "DogecoinStack"; "EngineStack"].
Proof.
  set (names := ["NetworkStack"; "DogecoinStack"; "DatabaseStack"; "EngineStack"]).
  split.
  - intros H. pose proof H as Hall. revert Hall.
    unfold App.deploymentOrder in H. rewrite app_stackNames in H.
    apply andb_true_iff in H as [H _].
    apply andb_true_iff in H as [H Hsub].
    apply andb_true_iff in H as [Hnd Hsup].
    apply bool_decide_eq_true in Hnd.
    rewrite forallb_forall in Hsub. rewrite forallb_forall in Hsup.
    assert (Hin : ∀ s, s ∈ order → s ∈ names).
    { intros s Hs. apply list_elem_of_In in Hs. apply Hsub in Hs.
      by apply bool_decide_eq_true in Hs. }
    assert (Hni : ∀ s, s ∈ names → s ∈ order).
    { intros s Hs. apply list_elem_of_In in Hs. apply Hsup in Hs.
      by apply bool_decide_eq_true in Hs. }
    assert (Hlen : length order = 4).
    { apply Nat.le_antisymm.
      - apply (submseteq_length order names). by apply NoDup_submseteq.
      - apply (submseteq_length names order).
        apply NoDup_submseteq; [|done].
        apply (bool_decide_unpack _). reflexivity. }
    destruct order as [|a [|b [|c [|d [|]]]]]; try discriminate Hlen.
    assert (Ha := Hin a ltac:(repeat constructor)).
    assert (Hb := Hin b ltac:(repeat constructor)).
    assert (Hc := Hin c ltac:(repeat constructor)).
    assert (Hd := Hin d ltac:(repeat constructor)).
    clear -Ha Hb Hc Hd. unfold names in *.
    rewrite !elem_of_cons, elem_of_nil in Ha, Hb, Hc, Hd.
    destruct Ha as [->|[->|[->|[->|[]]]]], Hb as [->|[->|[->|[->|[]]]]],
      Hc as [->|[->|[->|[->|[]]]]], Hd as [->|[->|[->|[->|[]]]]];
      vm_compute; intros Hall; first [discriminate Hall | by left | by right].
  - intros [->| ->]; reflexivity.
Qed.

(** ** Service discovery (C4) *)

(** C4: the Dogecoin stack's service-discovery hostname is its service name,
    a dot, and its namespace name, each taken from the option of that name
    or else [dogecoin] and [fractal.local]; with both options omitted it is
    [dogecoin.fractal.local]. *)
Theorem service_discovery_hostname (id : string) (props : DogecoinStackProps.t) :
  let host :=
    DogecoinStack.serviceDiscoveryName (DogecoinStack.constructor id props) in
  host =
    (DogecoinStackProps.serviceName props ?? "dogecoin") +:+ "." +:+
    (DogecoinStackProps.namespaceName props ?? "fractal.local") ∧
  (∀ service namespace,
     DogecoinStackProps.serviceName props = Some service →
     DogecoinStackProps.namespaceName props = Some namespace →
     host = service +:+ "." +:+ namespace) ∧
  (DogecoinStackProps.serviceName props = None →
   DogecoinStackProps.namespaceName props = None →
   host = "dogecoin.fractal.local").
Proof.
  intros host. subst host. split_and!; [reflexivity|..].
  - intros service namespace Hs Hn.
    cbn [DogecoinStack.constructor DogecoinStack.serviceDiscoveryName].
    rewrite Hs, Hn. reflexivity.
  - intros Hs Hn.
    cbn [DogecoinStack.constructor DogecoinStack.serviceDiscoveryName].
    rewrite Hs, Hn. reflexivity.
Qed.

Lemma service_discovery_hostname_witness :
  let omitted := Sample.dogecoinProps None None None in
  let given := Sample.dogecoinProps (Some "node") (Some "chain.internal") None in
  DogecoinStackProps.serviceName omitted = None ∧
  DogecoinStackProps.namespaceName omitted = None ∧
  DogecoinStack.serviceDiscoveryName
    (DogecoinStack.constructor "DogecoinStack" omitted) =
    "dogecoin.fractal.local" ∧
  DogecoinStack.serviceDiscoveryName
    (DogecoinStack.constructor "DogecoinStack" given) =
    "node.chain.internal".
Proof.
  pose proof (service_discovery_hostname "DogecoinStack"
                (Sample.dogecoinProps None None None))
    as (_ & _ & Homitted).
  pose proof (service_discovery_hostname "DogecoinStack"
                (Sample.dogecoinProps (Some "node") (Some "chain.internal") None))
    as (_ & Hgiven & _).
  split_and!; [reflexivity..| |].
  - apply Homitted; reflexivity.
  - apply (Hgiven "node" "chain.internal"); reflexivity.
Defined.

(** ** The engine container (C5) *)

(** C5: whatever the props, the engine container's environment has
    [RPC_SERVER_HOST], [RPC_SERVER_PORT], [CORS_ALLOWED_ORIGINS],
    [DATABASE_HOST], [DATABASE_PORT] and [DATABASE_NAME]; its secrets are
    [DATABASE_USERNAME] and [DATABASE_PASSWORD], both taken from the
    database secret; and [DOGE_HOST], [DOGE_PORT] and [DOGECOIN_ZMQ_PORT]
    are there exactly when a Dogecoin connection with a (non-empty) host is
    supplied.  The environment has no other name. *)
Theorem engine_environment_names (id : string) (props : EngineStackProps.t) :
  let s := EngineStack.constructor id props in
  let e := EngineStack.engineEnvironment s in
  Forall (fun k => JsObject.has k e = true) Spec.requiredNames ∧
  Forall (fun k => JsObject.has k e = Spec.hostSupplied props)
    Spec.dogecoinNames ∧
  JsObject.keys e =
    Spec.requiredNames ++
    (if Spec.hostSupplied props then Spec.dogecoinNames else []) ∧
  map fst (EngineStack.engineSecrets s) = Spec.secretNames ∧
  Forall (fun ks => ecs.fromSecret (snd ks) = EngineStackProps.dbSecret props)
    (EngineStack.engineSecrets s).
Proof.
  intros s e. subst e s.
  rewrite engineEnvironment_unfold, truthy_hostSupplied.
  split_and!.
  - destruct (EngineStackProps.dogecoin props) as [d|];
      [destruct (truthy (DogecoinConnection.host d))|];
      repeat constructor.
  - destruct (EngineStackProps.dogecoin props) as [d|];
      [destruct (truthy (DogecoinConnection.host d))|];
      repeat constructor.
  - destruct (EngineStackProps.dogecoin props) as [d|];
      [destruct (truthy (DogecoinConnection.host d))|]; reflexivity.
  - reflexivity.
  - repeat constructor.
Qed.

(** ** Defaults (C6) *)

(** C6: with [databaseName] omitted the database stack declares its one
    instance with a PostgreSQL engine and the name [fractal]; the one
    generated credential leaves out the double quote and the characters
    @/\:?#[]{}|^~;=%&+()<> ; with [dbPort] omitted the engine container has
    [DATABASE_PORT] once, and its value is [5432]. *)
Theorem defaults_applied_once (id1 id2 : string)
    (dprops : DatabaseStackProps.t) (eprops : EngineStackProps.t)
    (Hname : DatabaseStackProps.databaseName dprops = None)
    (Hport : EngineStackProps.dbPort eprops = None) :
  let db := DatabaseStack.constructor id1 dprops in
  let inst := DatabaseStack.rdsInstance db in
  let e := EngineStack.engineEnvironment (EngineStack.constructor id2 eprops) in
  (∃ v, rds.engine inst = rds.postgres v) ∧
  rds.databaseName inst = "fractal" ∧
  list_ascii_of_string (rds.excludeCharacters (rds.credentials inst)) =
    Spec.excludedCharacters ∧
  DatabaseStack.rdsSecret db = rds.secret inst ∧
  JsObject.get "DATABASE_PORT" e = Some "5432" ∧
  JsObject.occurrences "DATABASE_PORT" e = 1.
Proof.
  intros db inst e. subst inst db e.
  cbn [DatabaseStack.constructor DatabaseStack.rdsInstance DatabaseStack.rdsSecret
       rds.engine rds.databaseName rds.credentials rds.excludeCharacters].
  rewrite Hname. split_and!; [by eexists|reflexivity..| |].
  - rewrite engineEnvironment_unfold, Hport. reflexivity.
  - rewrite occurrences_NoDup.
    + unfold JsObject.has. rewrite engineEnvironment_unfold. reflexivity.
    + apply NoDup_keys_literal.
Qed.

Lemma defaults_applied_once_witness :
  let dprops := Sample.databaseProps None None in
  let eprops := Sample.engineProps None None None in
  DatabaseStackProps.databaseName dprops = None ∧
  EngineStackProps.dbPort eprops = None ∧
  rds.databaseName
    (DatabaseStack.rdsInstance (DatabaseStack.constructor "DatabaseStack" dprops)) =
    "fractal" ∧
  JsObject.get "DATABASE_PORT"
    (EngineStack.engineEnvironment (EngineStack.constructor "EngineStack" eprops)) =
    Some "5432".
Proof.
  split_and!; [reflexivity..| |].
  - apply (defaults_applied_once "DatabaseStack" "EngineStack"
             (Sample.databaseProps None None)
             (Sample.engineProps None None None)); reflexivity.
  - apply (defaults_applied_once "DatabaseStack" "EngineStack"
             (Sample.databaseProps None None)
             (Sample.engineProps None None None)); reflexivity.
Defined.

(** ** The load balancer (C7) *)

(** C7: the load balancer's listener is an HTTP listener on port 80; the one
    target group behind it checks health at [/health], takes [200] as
    healthy, checks every 30 seconds, and waits 10 seconds before it
    deregisters a target. *)
Theorem load_balancer_health_check (id : string) (props : EngineStackProps.t) :
  let s := EngineStack.constructor id props in
  elbv2.listenerPort (EngineStack.httpListener s) = 80%Z ∧
  elbv2.protocolOf (EngineStack.httpListener s) = elbv2.HTTP ∧
  ∃ tg, EngineStack.listenerTargetGroups s = [tg] ∧
    elbv2.path (elbv2.healthCheck tg) = "/health" ∧
    elbv2.healthyHttpCodes (elbv2.healthCheck tg) = "200" ∧
    elbv2.interval (elbv2.healthCheck tg) = cdk.seconds (Num 30) ∧
    elbv2.deregistrationDelay tg = cdk.seconds (Num 10).
Proof.
  intros s. split_and!; [reflexivity..|].
  eexists. split; [reflexivity|]. split_and!; reflexivity.
Qed.

(** ** The process environment *)

(** The account does reach the resource graph: another account gives
    another graph. *)
Lemma app_depends_on_account :
  App.app (<["CDK_DEFAULT_ACCOUNT" := "111111111111"]> ∅) ≠
  App.app (<["CDK_DEFAULT_ACCOUNT" := "222222222222"]> ∅).
Proof.
  intros Heq.
  apply (f_equal (fun a => cdk.env (NetworkStack.stack (App.network a)))) in Heq.
  vm_compute in Heq. discriminate.
Qed.

(** ** Dogecoin subnets (C9) *)


(** In the composition these are the subnets named [app]. *)
Lemma app_dogecoin_subnets (process_env : gmap string string) :
  let a := App.app process_env in
  map ec2.name
    (ec2.selectSubnets (NetworkStack.vpc (App.network a))
       (ecs.vpcSubnets (DogecoinStack.service (App.doge a)))) = ["app"].
Proof. reflexivity. Qed.

(** ** The database is private (C10) *)


(** In the composition the instance sits in the subnets named [data]. *)
Lemma app_database_subnets (process_env : gmap string string) :
  let a := App.app process_env in
  map ec2.name
    (ec2.selectSubnets (NetworkStack.vpc (App.network a))
       (rds.vpcSubnets (DatabaseStack.rdsInstance (App.db a)))) = ["data"].
Proof. reflexivity. Qed.

(** * Further properties of the stacks *)

(** ** Objects: spreading and reading back *)

Section JsObjectSpread.

Import JsObject.

Lemma get_absent k o : k ∉ keys o → get k o = None.
Proof.
  unfold keys. induction o as [|[k0 v0] o IH]; intros Hn; [done|].
  simpl in Hn. apply not_elem_of_cons in Hn as [Hne Hn].
  simpl. rewrite decide_False by done. by apply IH.
Qed.

(** Reading a key after [Object.assign]: the source's value when the source
    has the key, the target's otherwise. *)
Lemma get_assign k dst src :
  NoDup (keys src) →
  get k (assign dst src) =
  match get k src with
  | Some v => Some v
  | None => get k dst
  end.
Proof.
  unfold assign. revert dst.
  induction src as [|[k0 v0] src IH]; intros dst Hnd; [done|].
  simpl in Hnd. apply NoDup_cons in Hnd as [Hnotin Hnd].
  cbn [fold_left fst snd get]. rewrite IH by done.
  destruct (decide (k = k0)) as [->|Hk].
  - rewrite (get_absent k0 src) by done. apply get_set_eq.
  - destruct (get k src); [done|]. by apply get_set_ne.
Qed.

Lemma elem_of_keys_assign k dst src :
  k ∈ keys (assign dst src) ↔ k ∈ keys dst ∨ k ∈ keys src.
Proof.
  unfold assign. revert dst.
  induction src as [|[k0 v0] src IH]; intros dst.
  - unfold keys at 3. simpl. rewrite elem_of_nil. tauto.
  - cbn [fold_left fst snd]. rewrite IH, elem_of_keys_set.
    unfold keys at 4. cbn [map fst]. rewrite elem_of_cons. tauto.
Qed.

End JsObjectSpread.

(** ** The Dogecoin container *)

Section DogecoinContainer.

Variables (id : string) (props : DogecoinStackProps.t).

Lemma dogecoinEnvironment_unfold :
  DogecoinStack.dogecoinEnvironment (DogecoinStack.constructor id props) =
  JsObject.set "DATADIR" "/data"
    (JsObject.assign [] (DogecoinStackProps.environment props ?? [])).
Proof. reflexivity. Qed.

Lemma dogecoinEnvironment_NoDup :
  NoDup (JsObject.keys
           (DogecoinStack.dogecoinEnvironment (DogecoinStack.constructor id props))).
Proof.
  rewrite dogecoinEnvironment_unfold.
  apply NoDup_keys_set, NoDup_keys_assign, NoDup_nil_2.
Qed.

End DogecoinContainer.

(** X1: whatever environment the props supply, also one that sets [DATADIR]
    itself, the Dogecoin container's [DATADIR] is [/data], and the
    environment has that name once. *)
Theorem dogecoin_datadir_forced (id : string) (props : DogecoinStackProps.t) :
  let e := DogecoinStack.dogecoinEnvironment (DogecoinStack.constructor id props) in
  JsObject.get "DATADIR" e = Some "/data" ∧
  JsObject.occurrences "DATADIR" e = 1.
Proof.
  intros e. subst e. split.
  - rewrite dogecoinEnvironment_unfold. apply get_set_eq.
  - rewrite occurrences_NoDup by apply dogecoinEnvironment_NoDup.
    unfold JsObject.has. rewrite dogecoinEnvironment_unfold, get_set_eq.
    reflexivity.
Qed.

(** X2: every other variable of a supplied environment (an object: its
    names are distinct) reaches the container with its value, and a name the
    environment lacks stays absent. *)
Theorem dogecoin_environment_kept (id : string) (props : DogecoinStackProps.t)
    (k : string) :
  NoDup (JsObject.keys (DogecoinStackProps.environment props ?? [])) →
  k ≠ "DATADIR" →
  JsObject.get k
    (DogecoinStack.dogecoinEnvironment (DogecoinStack.constructor id props)) =
  JsObject.get k (DogecoinStackProps.environment props ?? []).
Proof.
  intros Hnd Hk. rewrite dogecoinEnvironment_unfold.
  rewrite get_set_ne by done. rewrite get_assign by done.
  by destruct (JsObject.get k _).
Qed.

Lemma dogecoin_environment_kept_witness :
  let props := Sample.dogecoinPropsWith (Some Sample.nodeEnvironment) None in
  NoDup (JsObject.keys (DogecoinStackProps.environment props ?? [])) ∧
  "CHAIN" ≠ "DATADIR" ∧
  JsObject.get "CHAIN"
    (DogecoinStack.dogecoinEnvironment
       (DogecoinStack.constructor "DogecoinStack" props)) = Some "testnet".
Proof.
  assert (Hnd : NoDup (JsObject.keys Sample.nodeEnvironment)).
  { apply (bool_decide_unpack _). reflexivity. }
  split_and!; [exact Hnd|discriminate|].
  apply (dogecoin_environment_kept "DogecoinStack"
           (Sample.dogecoinPropsWith (Some Sample.nodeEnvironment) None) "CHAIN");
    [exact Hnd|discriminate].
Defined.

(** X3: the names of the Dogecoin container's environment are the supplied
    names and [DATADIR], none of them twice. *)
Theorem dogecoin_environment_names (id : string) (props : DogecoinStackProps.t) :
  let e := DogecoinStack.dogecoinEnvironment (DogecoinStack.constructor id props) in
  NoDup (JsObject.keys e) ∧
  ∀ k, k ∈ JsObject.keys e ↔
       k = "DATADIR" ∨
       k ∈ JsObject.keys (DogecoinStackProps.environment props ?? []).
Proof.
  intros e. subst e. split; [apply dogecoinEnvironment_NoDup|].
  intros k. rewrite dogecoinEnvironment_unfold.
  rewrite elem_of_keys_set, elem_of_keys_assign.
  unfold JsObject.keys at 1. simpl. rewrite elem_of_nil. tauto.
Qed.

(** X4: the node's data directory is on the file system: the container's
    one mount point puts the task's one volume at the path [DATADIR] names,
    writable, and that volume is the stack's EFS file system reached
    through the stack's access point, over an encrypted, IAM-authorised
    mount; the file system is retained when the stack is deleted. *)
Theorem dogecoin_data_on_efs (id : string) (props : DogecoinStackProps.t) :
  let s := DogecoinStack.constructor id props in
  ∃ c m v,
    DogecoinStack.containers s = [c] ∧
    ecs.mountPoints c = [m] ∧
    ecs.volumes (ecs.taskDefinition (DogecoinStack.service s)) = [v] ∧
    ecs.sourceVolume m = ecs.volumeName v ∧
    ecs.readOnly m = false ∧
    JsObject.get "DATADIR" (ecs.environment c) = Some (ecs.containerPath m) ∧
    ecs.fileSystemId (ecs.efsVolumeConfiguration v) =
      efs.fileSystemId (DogecoinStack.dogeEfs s) ∧
    ecs.accessPointId (ecs.authorizationConfig (ecs.efsVolumeConfiguration v)) =
      efs.accessPointId (DogecoinStack.dogeEfsAp s) ∧
    efs.fileSystem (DogecoinStack.dogeEfsAp s) =
      efs.fsNode (DogecoinStack.dogeEfs s) ∧
    ecs.transitEncryption (ecs.efsVolumeConfiguration v) = "ENABLED" ∧
    ecs.iam (ecs.authorizationConfig (ecs.efsVolumeConfiguration v)) = "ENABLED" ∧
    efs.removalPolicy (DogecoinStack.dogeEfs s) = cdk.RETAIN.
Proof.
  intros s. do 3 eexists.
  split; [reflexivity|]. split; [reflexivity|]. split; [reflexivity|].
  split_and!; try reflexivity.
  change (JsObject.get "DATADIR"
            (DogecoinStack.dogecoinEnvironment (DogecoinStack.constructor id props)) =
          Some "/data").
  rewrite dogecoinEnvironment_unfold. apply get_set_eq.
Qed.

(** X5: the container exposes three TCP ports, in the order RPC, P2P, ZMQ,
    each its option or else 22555, 22556, 28000; the RPC and ZMQ ports the
    stack hands on are the first and the third of them, and the stack's
    outputs are the hostname it hands on and those two ports as strings. *)
Theorem dogecoin_ports_exposed (id : string) (props : DogecoinStackProps.t) :
  let s := DogecoinStack.constructor id props in
  ∃ c, DogecoinStack.containers s = [c] ∧
    map ecs.containerPort (ecs.portMappings c) =
      [ DogecoinStackProps.rpcPort props ?? Num 22555;
        DogecoinStackProps.p2pPort props ?? Num 22556;
        DogecoinStackProps.zmqPort props ?? Num 28000 ] ∧
    Forall (fun m => ecs.protocol m = ecs.TCP) (ecs.portMappings c) ∧
    ecs.portMappings c !! 0 =
      Some {| ecs.containerPort := DogecoinStack.rpcPort s; ecs.protocol := ecs.TCP |} ∧
    ecs.portMappings c !! 2 =
      Some {| ecs.containerPort := DogecoinStack.zmqPort s; ecs.protocol := ecs.TCP |} ∧
    map (fun o => (cdk.outputId o, cdk.value o)) (DogecoinStack.outputs s) =
      [ ("DogecoinServiceDiscoveryName", DogecoinStack.serviceDiscoveryName s);
        ("DogecoinRpcPort", String_ (DogecoinStack.rpcPort s));
        ("DogecoinZmqPort", String_ (DogecoinStack.zmqPort s)) ].
Proof.
  intros s. eexists. split; [reflexivity|].
  split_and!; try reflexivity. repeat constructor.
Qed.

(** X6: when the [namespaceName] option (or its default) is the name of the
    namespace the service is registered in, the hostname the stack hands on
    is the name the service is registered under, a dot, and the name of
    that namespace. *)
Theorem dogecoin_hostname_is_registered_name (id : string)
    (props : DogecoinStackProps.t) :
  DogecoinStackProps.namespaceName props ?? "fractal.local" =
    servicediscovery.namespaceName (DogecoinStackProps.namespace props) →
  let s := DogecoinStack.constructor id props in
  ∃ o, ecs.cloudMapOptions (DogecoinStack.service s) = Some o ∧
    DogecoinStack.serviceDiscoveryName s =
      ecs.cloudMapName o +:+ "." +:+
      servicediscovery.namespaceName (ecs.cloudMapNamespace o).
Proof.
  intros Hname s. eexists. split; [reflexivity|].
  cbn [ecs.cloudMapName ecs.cloudMapNamespace]. rewrite <- Hname. reflexivity.
Qed.

Lemma dogecoin_hostname_is_registered_name_witness :
  let props := Sample.dogecoinProps (Some "node") None None in
  DogecoinStackProps.namespaceName props ?? "fractal.local" =
    servicediscovery.namespaceName (DogecoinStackProps.namespace props) ∧
  ∃ o, ecs.cloudMapOptions
         (DogecoinStack.service (DogecoinStack.constructor "DogecoinStack" props)) =
       Some o ∧
    DogecoinStack.serviceDiscoveryName
      (DogecoinStack.constructor "DogecoinStack" props) =
      ecs.cloudMapName o +:+ "." +:+
      servicediscovery.namespaceName (ecs.cloudMapNamespace o).
Proof.
  split; [reflexivity|].
  apply (dogecoin_hostname_is_registered_name "DogecoinStack"
           (Sample.dogecoinProps (Some "node") None None)).
  reflexivity.
Defined.

(** ** The network stack's rules and the ports of the node *)

Lemma network_dogecoin_ingress (id : string) (props : option NetworkStackProps.t) :
  let net := NetworkStack.constructor id props in
  map (fun r => (ec2.peer r, ec2.port r)) (ec2.ingress (NetworkStack.dogeSg net)) =
  map (fun p => (ec2.securityGroupPeer (ec2.sgNode (NetworkStack.engineSg net)),
                 ec2.tcp p))
    [22555%Z; 22556%Z; 28000%Z].
Proof. reflexivity. Qed.

Lemma network_dogecoin_rules (id : string) (props : option NetworkStackProps.t)
    (p : Z) :
  let net := NetworkStack.constructor id props in
  App.groupAdmits (NetworkStack.dogeSg net)
    (ec2.sgNode (NetworkStack.engineSg net)) p = true ↔
  p = 22555%Z ∨ p = 22556%Z ∨ p = 28000%Z.
Proof.
  intros net. unfold App.groupAdmits. rewrite existsb_exists.
  pose proof (network_dogecoin_ingress id props) as Hing. cbv zeta in Hing.
  fold net in Hing.
  set (eng := ec2.sgNode (NetworkStack.engineSg net)) in *.
  set (rules := ec2.ingress (NetworkStack.dogeSg net)) in *.
  clearbody eng rules. split.
  - intros (r & Hin & Hok). apply admits_true in Hok as (Hport & _).
    apply (in_map (fun r => (ec2.peer r, ec2.port r))) in Hin.
    rewrite Hing in Hin. cbn [map In] in Hin. rewrite Hport in Hin.
    destruct Hin as [[= _ <-]|[[= _ <-]|[[= _ <-]|[]]]]; auto.
  - intros Hp.
    assert (Hin : In (ec2.securityGroupPeer eng, ec2.tcp p)
                    (map (fun r => (ec2.peer r, ec2.port r)) rules)).
    { rewrite Hing. cbn [map In]. destruct Hp as [->|[->| ->]]; auto. }
    apply in_map_iff in Hin as (r & [= Hpeer Hport] & Hin).
    exists r. split; [exact Hin|]. apply admits_true. auto.
Qed.

(** X7: the network stack admits the engine into the Dogecoin group on
    22555, 22556 and 28000 only, whatever its props; a Dogecoin stack in
    that group whose [rpcPort] option is another port exposes and hands on
    that port, and its service's group does not admit the engine on it. *)
Theorem dogecoin_custom_port_not_admitted (nid did : string)
    (nprops : option NetworkStackProps.t) (dprops : DogecoinStackProps.t)
    (p : Z) :
  let net := NetworkStack.constructor nid nprops in
  let s := DogecoinStack.constructor did dprops in
  DogecoinStackProps.dogeSecurityGroup dprops = NetworkStack.dogeSg net →
  DogecoinStackProps.rpcPort dprops = Some (Num p) →
  p ≠ 22555%Z → p ≠ 22556%Z → p ≠ 28000%Z →
  DogecoinStack.rpcPort s = Num p ∧
  Num p ∈ map ecs.containerPort
            (concat (map ecs.portMappings (DogecoinStack.containers s))) ∧
  Forall
    (fun sg => App.groupAdmits sg (ec2.sgNode (NetworkStack.engineSg net)) p = false)
    (ecs.securityGroups (DogecoinStack.service s)).
Proof.
  intros net s Hsg Hport H1 H2 H3. subst s.
  cbn [DogecoinStack.constructor DogecoinStack.rpcPort DogecoinStack.service
       DogecoinStack.containers ecs.taskDefinition ecs.containers
       ecs.securityGroups ecs.addPortMappings ecs.addMountPoints
       ecs.portMappings map concat app ecs.containerPort].
  rewrite Hport, Hsg. cbn [default]. split_and!; [reflexivity|constructor|].
  constructor; [|constructor].
  apply not_true_is_false. intros Hadm.
  apply (network_dogecoin_rules nid nprops p) in Hadm. tauto.
Qed.

Lemma dogecoin_custom_port_not_admitted_witness :
  let net := Sample.network in
  let dprops := Sample.dogecoinPropsWith None (Some (Num 18332)) in
  let s := DogecoinStack.constructor "DogecoinStack" dprops in
  DogecoinStackProps.dogeSecurityGroup dprops = NetworkStack.dogeSg net ∧
  DogecoinStackProps.rpcPort dprops = Some (Num 18332) ∧
  DogecoinStack.rpcPort s = Num 18332 ∧
  Forall
    (fun sg =>
       App.groupAdmits sg (ec2.sgNode (NetworkStack.engineSg net)) 18332 = false)
    (ecs.securityGroups (DogecoinStack.service s)).
Proof.
  pose proof (dogecoin_custom_port_not_admitted "NetworkStack" "DogecoinStack"
                None (Sample.dogecoinPropsWith None (Some (Num 18332))) 18332
                eq_refl eq_refl) as H.
  destruct H as (Hrpc & _ & Hadm); [discriminate..|].
  split_and!; [reflexivity|reflexivity|exact Hrpc|exact Hadm].
Defined.

(** ** The engine container, further *)

(** X8: a Dogecoin connection whose host is the empty string counts as no
    connection: the engine stack is the one built without a connection,
    whatever ports the connection names. *)
Theorem engine_empty_host_is_no_connection (id : string)
    (props : EngineStackProps.t) (d : DogecoinConnection.t) :
  DogecoinConnection.host d = "" →
  EngineStack.constructor id (Spec.withDogecoin props (Some d)) =
  EngineStack.constructor id (Spec.withDogecoin props None).
Proof.
  intros Hhost. unfold EngineStack.constructor.
  cbn [Spec.withDogecoin EngineStackProps.dogecoin EngineStackProps.env
       EngineStackProps.vpc EngineStackProps.albSecurityGroup
       EngineStackProps.engineSecurityGroup EngineStackProps.dbHost
       EngineStackProps.dbPort EngineStackProps.dbSecret
       EngineStackProps.databaseName EngineStackProps.desiredCount
       EngineStackProps.cpu EngineStackProps.memoryMiB
       EngineStackProps.engineContainerImage EngineStackProps.appSubnetSelection
       EngineStackProps.albSubnetSelection].
  rewrite Hhost. reflexivity.
Qed.

Lemma engine_empty_host_is_no_connection_witness :
  let props := Sample.engineProps None None None in
  DogecoinConnection.host Sample.noHost = "" ∧
  EngineStack.constructor "EngineStack"
    (Spec.withDogecoin props (Some Sample.noHost)) =
  EngineStack.constructor "EngineStack" (Spec.withDogecoin props None).
Proof.
  split; [reflexivity|].
  apply (engine_empty_host_is_no_connection "EngineStack"
           (Sample.engineProps None None None) Sample.noHost).
  reflexivity.
Defined.

(** X9: no name is given twice to the engine container: the names of its
    environment and the names of its secrets are all distinct, whatever the
    props. *)
Theorem engine_names_distinct (id : string) (props : EngineStackProps.t) :
  let s := EngineStack.constructor id props in
  NoDup (JsObject.keys (EngineStack.engineEnvironment s) ++
         map fst (EngineStack.engineSecrets s)).
Proof.
  intros s. subst s. rewrite engineEnvironment_unfold.
  destruct (EngineStackProps.dogecoin props) as [d|];
    [destruct (truthy (DogecoinConnection.host d))|];
    apply (bool_decide_unpack _); reflexivity.
Qed.

(** X10: with a connection whose host is not empty, [DOGE_HOST] is that
    host, [DOGE_PORT] is the connection's RPC port or else 22555, and
    [DOGECOIN_ZMQ_PORT] is its ZMQ port or else 28000, as strings. *)
Theorem engine_dogecoin_variables (id : string) (props : EngineStackProps.t)
    (d : DogecoinConnection.t) :
  EngineStackProps.dogecoin props = Some d →
  DogecoinConnection.host d ≠ "" →
  let e := EngineStack.engineEnvironment (EngineStack.constructor id props) in
  JsObject.get "DOGE_HOST" e = Some (DogecoinConnection.host d) ∧
  JsObject.get "DOGE_PORT" e =
    Some (String_ (DogecoinConnection.rpcPort d ?? Num 22555)) ∧
  JsObject.get "DOGECOIN_ZMQ_PORT" e =
    Some (String_ (DogecoinConnection.zmqPort d ?? Num 28000)).
Proof.
  intros Hd Hhost e. subst e. rewrite engineEnvironment_unfold, Hd.
  destruct (DogecoinConnection.host d) as [|a h] eqn:Hh; [done|].
  cbn [truthy]. split_and!; reflexivity.
Qed.

Lemma engine_dogecoin_variables_witness :
  let props := Sample.engineProps None None (Some Sample.nodeHost) in
  let e :=
    EngineStack.engineEnvironment (EngineStack.constructor "EngineStack" props) in
  EngineStackProps.dogecoin props = Some Sample.nodeHost ∧
  DogecoinConnection.host Sample.nodeHost ≠ "" ∧
  JsObject.get "DOGE_HOST" e = Some "node.chain.internal" ∧
  JsObject.get "DOGE_PORT" e = Some "22555" ∧
  JsObject.get "DOGECOIN_ZMQ_PORT" e = Some "29000".
Proof.
  split_and!; [reflexivity|discriminate|..];
    apply (engine_dogecoin_variables "EngineStack"
             (Sample.engineProps None None (Some Sample.nodeHost))
             Sample.nodeHost); first [reflexivity | discriminate].
Defined.

(** X11: the load balancer forwards to the engine: the listener's one
    target group has the engine service as its one target, addressed by IP
    over HTTP, on a port the engine container exposes, and that port is the
    one [RPC_SERVER_PORT] tells the engine to listen on; the container
    exposes 8891 and 8086, both over TCP. *)
Theorem load_balancer_targets_engine_port (id : string)
    (props : EngineStackProps.t) :
  let s := EngineStack.constructor id props in
  ∃ tg c,
    EngineStack.listenerTargetGroups s = [tg] ∧
    EngineStack.containers s = [c] ∧
    elbv2.targets tg = [ecs.serviceNode (EngineStack.service s)] ∧
    elbv2.targetType tg = elbv2.IP ∧
    elbv2.tgProtocol tg = elbv2.HTTP ∧
    map (fun m => (ecs.containerPort m, ecs.protocol m)) (ecs.portMappings c) =
      [(Num 8891, ecs.TCP); (Num 8086, ecs.TCP)] ∧
    Num (elbv2.tgPort tg) ∈ map ecs.containerPort (ecs.portMappings c) ∧
    JsObject.get "RPC_SERVER_PORT" (ecs.environment c) =
      Some (String_ (Num (elbv2.tgPort tg))).
Proof.
  intros s. do 2 eexists.
  split; [reflexivity|]. split; [reflexivity|].
  split_and!; try reflexivity.
  - constructor.
  - change (JsObject.get "RPC_SERVER_PORT"
              (EngineStack.engineEnvironment (EngineStack.constructor id props)) =
            Some "8891").
    rewrite engineEnvironment_unfold. reflexivity.
Qed.

(** ** The network stack's props *)


(** X13: no VPC endpoint of the network stack is placed in the public
    subnets: the seven interface endpoints are in the private-with-egress
    tier, the S3 gateway endpoint in the two private tiers, and the
    endpoints' ids are distinct. *)
Theorem network_endpoints_private (id : string)
    (props : option NetworkStackProps.t) :
  let v := NetworkStack.vpc (NetworkStack.constructor id props) in
  length (ec2.interfaceEndpoints v) = 7 ∧
  Forall
    (fun e => ec2.endpointSubnets e = ec2.bySubnetType ec2.PRIVATE_WITH_EGRESS)
    (ec2.interfaceEndpoints v) ∧
  map ec2.gatewaySubnets (ec2.gatewayEndpoints v) =
    [[ ec2.bySubnetType ec2.PRIVATE_WITH_EGRESS;
       ec2.bySubnetType ec2.PRIVATE_ISOLATED ]] ∧
  Forall
    (fun c => ec2.subnetType c ≠ ec2.PUBLIC)
    (concat
       (map (ec2.selectSubnets v)
          (map ec2.endpointSubnets (ec2.interfaceEndpoints v) ++
           concat (map ec2.gatewaySubnets (ec2.gatewayEndpoints v))))) ∧
  NoDup (map ec2.gatewayId (ec2.gatewayEndpoints v) ++
         map ec2.endpointId (ec2.interfaceEndpoints v)).
Proof.
  intros v. subst v. split_and!.
  - vm_compute. reflexivity.
  - vm_compute. repeat constructor.
  - vm_compute. reflexivity.
  - vm_compute. repeat (constructor; [intros Hty; discriminate Hty|]).
    constructor.
  - apply (bool_decide_unpack _). vm_compute. reflexivity.
Qed.

(** ** The composition, further *)

(** X14: in the composition the engine is pointed at the resources the other
    stacks made: [DOGE_HOST] is the hostname the Dogecoin stack hands on
    (the name its service is registered under in the network stack's
    namespace), [DOGE_PORT] and [DOGECOIN_ZMQ_PORT] are the Dogecoin
    stack's RPC and ZMQ ports, [DATABASE_HOST] and [DATABASE_PORT] are the
    endpoint address and port of the database instance, and both secrets
    are fields of the secret generated for that instance. *)
Theorem app_engine_wiring (process_env : gmap string string) :
  let a := App.app process_env in
  let e := EngineStack.engineEnvironment (App.engine a) in
  let inst := DatabaseStack.rdsInstance (App.db a) in
  JsObject.get "DOGE_HOST" e = Some (DogecoinStack.serviceDiscoveryName (App.doge a)) ∧
  (∃ o, ecs.cloudMapOptions (DogecoinStack.service (App.doge a)) = Some o ∧
        ecs.cloudMapNamespace o = NetworkStack.namespace (App.network a) ∧
        DogecoinStack.serviceDiscoveryName (App.doge a) =
          ecs.cloudMapName o +:+ "." +:+
          servicediscovery.namespaceName (ecs.cloudMapNamespace o)) ∧
  JsObject.get "DOGE_PORT" e = Some (String_ (DogecoinStack.rpcPort (App.doge a))) ∧
  JsObject.get "DOGECOIN_ZMQ_PORT" e =
    Some (String_ (DogecoinStack.zmqPort (App.doge a))) ∧
  JsObject.get "DATABASE_HOST" e = Some (rds.hostname inst) ∧
  JsObject.get "DATABASE_PORT" e = Some (String_ (rds.port inst)) ∧
  map (fun ks => (fst ks, ecs.field (snd ks))) (EngineStack.engineSecrets (App.engine a)) =
    [("DATABASE_USERNAME", "username"); ("DATABASE_PASSWORD", "password")] ∧
  Forall (fun ks => ecs.fromSecret (snd ks) = rds.secret inst)
    (EngineStack.engineSecrets (App.engine a)).
Proof.
  intros a e inst.
  split; [reflexivity|]. split; [eexists; split_and!; reflexivity|].
  split_and!; try reflexivity. repeat constructor.
Qed.

(** X15: in the composition every connection the stacks are configured for
    is admitted by the security groups they were put in: the load balancer
    (in the ALB group, open on its listener port to every source) reaches
    the engine service on the target group's port; the engine service
    reaches the Dogecoin service on each port its container exposes, and the
    database instance on 5432; the Dogecoin service reaches its file system
    on the file system's default port.  The engine container's second port,
    8086, is not admitted from the load balancer. *)
Theorem app_connections_admitted (process_env : gmap string string) :
  let a := App.app process_env in
  let lb := ec2.sgNode (elbv2.securityGroup (EngineStack.loadBalancer (App.engine a))) in
  let fs := DogecoinStack.dogeEfs (App.doge a) in
  ∃ eng node dbg,
    map ec2.sgNode (ecs.securityGroups (EngineStack.service (App.engine a))) = [eng] ∧
    map ec2.sgNode (ecs.securityGroups (DogecoinStack.service (App.doge a))) = [node] ∧
    map ec2.sgNode (rds.securityGroups (DatabaseStack.rdsInstance (App.db a))) = [dbg] ∧
    (∀ src, App.permitted a src lb
              (elbv2.listenerPort (EngineStack.httpListener (App.engine a))) = true) ∧
    Forall (fun tg => App.permitted a lb eng (elbv2.tgPort tg) = true)
      (EngineStack.listenerTargetGroups (App.engine a)) ∧
    Forall (fun m => ∃ p, ecs.containerPort m = Num p ∧
                          App.permitted a eng node p = true)
      (concat (map ecs.portMappings (DogecoinStack.containers (App.doge a)))) ∧
    App.permitted a eng dbg 5432 = true ∧
    (∃ p, efs.defaultPort fs = ec2.tcp p ∧
          App.permitted a node (ec2.sgNode (efs.connections fs)) p = true) ∧
    App.permitted a lb eng 8086 = false.
Proof.
  intros a lb fs. do 3 eexists.
  split; [reflexivity|]. split; [reflexivity|]. split; [reflexivity|].
  split_and!.
  - intros src. apply permitted_unfold. left. split; reflexivity.
  - repeat constructor.
  - repeat constructor; eexists; (split; [reflexivity|]); reflexivity.
  - reflexivity.
  - eexists. split; reflexivity.
  - reflexivity.
Qed.
